(** * build-deps-csv.py: the dependency scanner, embedded and verified

    The development follows the script top to bottom:
    - [Py]      the string methods of Python the parsers call;
    - [Re]      a backtracking matcher for the fragment of [re] the
                pre-compiled patterns use, with the patterns themselves;
    - [Parsers] the [parse_*] methods of [DependencyScanner];
    - [Scan]    [os.walk] with pruning, [_parse_dependency_file], [scan];
    - [Csv]     [write_csv] over the excel dialect of the [csv] module;
    - [Cli]     [main].

    A Python [str] is modelled as a [string]; a character stands for a
    code point below 256. *)

From Stdlib Require Import Ascii String List Arith Lia Bool.
From stdpp Require Import base option list strings gmap pretty.

Local Open Scope list_scope.

(* ===================================================================== *)
(** ** Python string methods *)
(* ===================================================================== *)

Module Py.

(** [str.isspace] on one character: the code points 9-13, 28-31, 32, 133
    and 160.  [str.strip()] and the pattern [\s] both use this test. *)
Definition isspace (c : ascii) : bool :=
  let n := nat_of_ascii c in
  ((9 <=? n) && (n <=? 13)) || ((28 <=? n) && (n <=? 32))
  || (n =? 133) || (n =? 160).

Definition eqc (a b : ascii) : bool := Ascii.eqb a b.

Definition is_empty (s : string) : bool :=
  match s with EmptyString => true | String _ _ => false end.

(** [s.startswith(p)] *)
Fixpoint startswith (p s : string) : bool :=
  match p, s with
  | EmptyString, _ => true
  | String a p', String b s' => eqc a b && startswith p' s'
  | String _ _, EmptyString => false
  end.

(** [sub in s] *)
Fixpoint contains (sub s : string) : bool :=
  startswith sub s ||
  match s with
  | EmptyString => false
  | String _ s' => contains sub s'
  end.

(** [s.split(sep)] for a one-character separator: never the empty list. *)
Fixpoint split (sep : ascii) (s : string) : list string :=
  match s with
  | EmptyString => [EmptyString]
  | String c s' =>
      if eqc c sep then EmptyString :: split sep s'
      else match split sep s' with
           | h :: t => String c h :: t
           | [] => [String c EmptyString]
           end
  end.

(** [s.split(sep, 1)] when [sep in s]: the text before the first
    separator and the text after it. *)
Fixpoint split1 (sep : ascii) (s : string) : string * string :=
  match s with
  | EmptyString => (EmptyString, EmptyString)
  | String c s' =>
      if eqc c sep then (EmptyString, s')
      else let '(a, b) := split1 sep s' in (String c a, b)
  end.

(** [sep.join(l)] *)
Fixpoint join (sep : string) (l : list string) : string :=
  match l with
  | [] => EmptyString
  | [x] => x
  | x :: l' => x +:+ sep +:+ join sep l'
  end.

Fixpoint lstrip_by (p : ascii -> bool) (s : string) : string :=
  match s with
  | EmptyString => EmptyString
  | String c s' => if p c then lstrip_by p s' else s
  end.

Fixpoint rstrip_by (p : ascii -> bool) (s : string) : string :=
  match s with
  | EmptyString => EmptyString
  | String c s' =>
      let r := rstrip_by p s' in
      if p c && is_empty r then EmptyString else String c r
  end.

Definition strip_by (p : ascii -> bool) (s : string) : string :=
  rstrip_by p (lstrip_by p s).

(** [s.strip()] *)
Definition strip (s : string) : string := strip_by isspace s.

(** [s.strip(chars)] *)
Definition strip_chars (chars : string) (s : string) : string :=
  strip_by (fun c => contains (String c EmptyString) chars) s.

(** [x or d] on strings and on optional strings: the empty string and
    [None] are both false. *)
Definition or_default (x : option string) (d : string) : string :=
  match x with
  | Some s => if is_empty s then d else s
  | None => d
  end.

End Py.

(* ===================================================================== *)
(** ** The fragment of [re] used by the pre-compiled patterns *)
(* ===================================================================== *)

Module Re.

(** Pattern syntax.  Repetition is only ever applied to a character
    class in the script's patterns, so [Star] takes a class. *)
Inductive regex : Type :=
| Eps
| Lit (l : string)             (* literal text *)
| Set_ (p : ascii -> bool)     (* one character of a class *)
| Star (p : ascii -> bool)     (* greedy [cls*] *)
| Opt (r : regex)              (* greedy [r?], also [(?:r)?] *)
| Grp (i : nat) (r : regex)    (* capturing group number [i] *)
| Seq (r1 r2 : regex)
| Bol                          (* [^] *)
| Eol.                         (* [$] *)

(** greedy [cls+] *)
Definition Plus (p : ascii -> bool) : regex := Seq (Set_ p) (Star p).

Declare Scope re_scope.
Delimit Scope re_scope with re.
Bind Scope re_scope with regex.
Infix "⋅" := Seq (at level 60, right associativity) : re_scope.

(** Captures, most recent first. *)
Definition caps : Type := list (nat * string).

Fixpoint lookup_cap (i : nat) (cs : caps) : option string :=
  match cs with
  | [] => None
  | (j, w) :: cs' => if i =? j then Some w else lookup_cap i cs'
  end.

(** A match object: where the match starts and ends, and its groups. *)
Record matchobj : Type := MatchObj {
  m_start : nat;
  m_end : nat;
  m_caps : caps
}.

(** [m.group(i)]: [None] when the group took no part in the match. *)
Definition group (m : matchobj) (i : nat) : option string :=
  lookup_cap i (m_caps m).

Fixpoint drop_prefix (l s : string) : option string :=
  match l, s with
  | EmptyString, _ => Some s
  | String a l', String b s' => if Py.eqc a b then drop_prefix l' s' else None
  | String _ _, EmptyString => None
  end.

Definition newline : ascii := "010"%char.

(** [$] without MULTILINE: the end of the text, or just before a newline
    that ends the text. *)
Definition at_eol (s : string) : bool :=
  match s with
  | EmptyString => true
  | String c EmptyString => Py.eqc c newline
  | _ => false
  end.

Section Engine.
Context {R : Type}.

(** What is left to match: the rest of the text, the position reached
    and the captures so far. *)
Definition cont : Type := string -> nat -> caps -> option R.

(** Greedy repetition: the longest run first, then shorter ones. *)
Fixpoint star (p : ascii -> bool) (k : cont) (s : string) (pos : nat)
    (cs : caps) : option R :=
  match s with
  | String c s' =>
      if p c then
        match star p k s' (S pos) cs with
        | Some x => Some x
        | None => k s pos cs
        end
      else k s pos cs
  | EmptyString => k s pos cs
  end.

(** The backtracking matcher, in continuation-passing style. *)
Fixpoint run (r : regex) (s : string) (pos : nat) (cs : caps) (k : cont)
    : option R :=
  match r with
  | Eps => k s pos cs
  | Lit l =>
      match drop_prefix l s with
      | Some s' => k s' (pos + String.length l) cs
      | None => None
      end
  | Set_ p =>
      match s with
      | String c s' => if p c then k s' (S pos) cs else None
      | EmptyString => None
      end
  | Star p => star p k s pos cs
  | Opt r1 =>
      match run r1 s pos cs k with
      | Some x => Some x
      | None => k s pos cs
      end
  | Grp i r1 =>
      run r1 s pos cs
        (fun s' pos' cs' => k s' pos' ((i, substring 0 (pos' - pos) s) :: cs'))
  | Seq r1 r2 =>
      run r1 s pos cs (fun s' pos' cs' => run r2 s' pos' cs' k)
  | Bol => if pos =? 0 then k s pos cs else None
  | Eol => if at_eol s then k s pos cs else None
  end.
End Engine.

(** A match of [r] that starts at position [pos], where [s] is the text
    from [pos] on. *)
Definition match_at (r : regex) (s : string) (pos : nat) : option matchobj :=
  run r s pos [] (fun _ pos' cs => Some (MatchObj pos pos' cs)).

(** [pattern.match(s)] *)
Definition match_ (r : regex) (s : string) : option matchobj :=
  match_at r s 0.

(** [pattern.search(s)]: the leftmost position with a match. *)
Fixpoint search_from (r : regex) (s : string) (pos : nat) : option matchobj :=
  match match_at r s pos with
  | Some m => Some m
  | None =>
      match s with
      | String _ s' => search_from r s' (S pos)
      | EmptyString => None
      end
  end.

Definition search (r : regex) (s : string) : option matchobj :=
  search_from r s 0.

(** [pattern.finditer(s)]: the non-overlapping matches from left to
    right.  [skip] counts the characters of the last match still to be
    passed; an empty match moves on by one character (none of the
    patterns scanned this way matches the empty text). *)
Fixpoint finditer_from (r : regex) (s : string) (pos skip : nat)
    : list matchobj :=
  match skip with
  | S k =>
      match s with
      | String _ s' => finditer_from r s' (S pos) k
      | EmptyString => []
      end
  | 0 =>
      match match_at r s pos with
      | Some m =>
          m :: match s with
               | String _ s' =>
                   finditer_from r s' (S pos) (pred (m_end m - m_start m))
               | EmptyString => []
               end
      | None =>
          match s with
          | String _ s' => finditer_from r s' (S pos) 0
          | EmptyString => []
          end
      end
  end.

Definition finditer (r : regex) (s : string) : list matchobj :=
  finditer_from r s 0 0.

(** [pattern.findall(s)] for a pattern with exactly one group: the text
    of that group for every match. *)
Definition findall1 (r : regex) (s : string) : list string :=
  omap (fun m => group m 1) (finditer r s).

(** *** Character classes *)

Definition in_range (lo hi c : ascii) : bool :=
  (nat_of_ascii lo <=? nat_of_ascii c) && (nat_of_ascii c <=? nat_of_ascii hi).

(** [[a-zA-Z0-9\-_]] *)
Definition name_char (c : ascii) : bool :=
  in_range "a" "z" c || in_range "A" "Z" c || in_range "0" "9" c
  || Py.eqc c "-" || Py.eqc c "_".

(** [[>=<~!]] *)
Definition op_char (c : ascii) : bool :=
  Py.eqc c ">" || Py.eqc c "=" || Py.eqc c "<" || Py.eqc c "~" || Py.eqc c "!".

Definition dquote : ascii := "034"%char.
Definition squote : ascii := "039"%char.

(** [\s] and [[^\s]] *)
Definition space : ascii -> bool := Py.isspace.
Definition non_space (c : ascii) : bool := negb (Py.isspace c).
(** [.] (no DOTALL) *)
Definition dot (c : ascii) : bool := negb (Py.eqc c newline).
(** any character but the double quote *)
Definition not_dquote (c : ascii) : bool := negb (Py.eqc c dquote).
(** a single or a double quote, and any character but these *)
Definition quote (c : ascii) : bool := Py.eqc c squote || Py.eqc c dquote.
Definition not_quote (c : ascii) : bool := negb (quote c).
(** [[^<]] *)
Definition not_lt (c : ascii) : bool := negb (Py.eqc c "<").

(** *** The patterns of the script *)
Local Open Scope re_scope.

Definition dq : string := String dquote EmptyString.

(** [DQ([^DQ]+)DQ:\s*DQ([^DQ]+)DQ] with DQ the double quote *)
Definition PACKAGE_JSON_PATTERN : regex :=
  Lit dq ⋅ Grp 1 (Plus not_dquote) ⋅ Lit dq ⋅ Lit ":" ⋅ Star space
  ⋅ Lit dq ⋅ Grp 2 (Plus not_dquote) ⋅ Lit dq.

(** [^(N+)\s*(O+ D* )?$] with N the class [[a-zA-Z0-9\-_]], O the class
    [[>=<~!]] and D the dot (the blank before the second closing bracket
    is not part of the pattern) *)
Definition REQUIREMENTS_PATTERN : regex :=
  Bol ⋅ Grp 1 (Plus name_char) ⋅ Star space
  ⋅ Opt (Grp 2 (Plus op_char ⋅ Star dot)) ⋅ Eol.

(** [^\s*([^\s]+)\s+v?([^\s]+)] *)
Definition GO_MOD_PATTERN : regex :=
  Bol ⋅ Star space ⋅ Grp 1 (Plus non_space) ⋅ Plus space ⋅ Opt (Lit "v")
  ⋅ Grp 2 (Plus non_space).

(** [gem\s+Q([^Q]+)Q(?:,\s*Q([^Q]+)Q)?] where Q is the class of the
    single and the double quote *)
Definition GEMFILE_PATTERN : regex :=
  Lit "gem" ⋅ Plus space ⋅ Set_ quote ⋅ Grp 1 (Plus not_quote) ⋅ Set_ quote
  ⋅ Opt (Lit "," ⋅ Star space ⋅ Set_ quote ⋅ Grp 2 (Plus not_quote)
         ⋅ Set_ quote).

(** [^(N+)\s*=\s*DQ([^DQ]+)DQ] with N as above and DQ the double quote *)
Definition CARGO_PATTERN : regex :=
  Bol ⋅ Grp 1 (Plus name_char) ⋅ Star space ⋅ Lit "=" ⋅ Star space
  ⋅ Lit dq ⋅ Grp 2 (Plus not_dquote) ⋅ Lit dq.

(** [<version>([^<]+)</version>] and its two siblings *)
Definition POM_VERSION_PATTERN : regex :=
  Lit "<version>" ⋅ Grp 1 (Plus not_lt) ⋅ Lit "</version>".
Definition POM_ARTIFACT_PATTERN : regex :=
  Lit "<artifactId>" ⋅ Grp 1 (Plus not_lt) ⋅ Lit "</artifactId>".
Definition POM_GROUP_PATTERN : regex :=
  Lit "<groupId>" ⋅ Grp 1 (Plus not_lt) ⋅ Lit "</groupId>".

(** [implementation\s+Q([^Q]+)Q], Q as above; compiled inside
    [parse_gradle] *)
Definition GRADLE_PATTERN : regex :=
  Lit "implementation" ⋅ Plus space ⋅ Set_ quote ⋅ Grp 1 (Plus not_quote)
  ⋅ Set_ quote.

(** Every character of [s] is in the class [p]. *)
Fixpoint all_chars (p : ascii -> bool) (s : string) : bool :=
  match s with
  | EmptyString => true
  | String c s' => p c && all_chars p s'
  end.

(** *** What a successful match looks like

    [steps r s pos cs s' pos' cs'] : [r] can take the matcher from the
    text [s] at position [pos] with captures [cs] to the rest [s'] at
    [pos'] with captures [cs'].  The relation leaves out which of the
    possible matches the greedy matcher prefers. *)
Inductive steps : regex -> string -> nat -> caps -> string -> nat -> caps -> Prop :=
| steps_eps s n c : steps Eps s n c s n c
| steps_lit l s s' n c :
    drop_prefix l s = Some s' ->
    steps (Lit l) s n c s' (n + String.length l) c
| steps_set p a s n c :
    p a = true -> steps (Set_ p) (String a s) n c s (S n) c
| steps_star_stop p s n c : steps (Star p) s n c s n c
| steps_star_more p a s n c s' n' :
    p a = true -> steps (Star p) s (S n) c s' n' c ->
    steps (Star p) (String a s) n c s' n' c
| steps_opt_some r s n c s' n' c' :
    steps r s n c s' n' c' -> steps (Opt r) s n c s' n' c'
| steps_opt_none r s n c : steps (Opt r) s n c s n c
| steps_grp i r s n c s' n' c' :
    steps r s n c s' n' c' ->
    steps (Grp i r) s n c s' n' ((i, substring 0 (n' - n) s) :: c')
| steps_seq r1 r2 s n c s1 n1 c1 s2 n2 c2 :
    steps r1 s n c s1 n1 c1 -> steps r2 s1 n1 c1 s2 n2 c2 ->
    steps (Seq r1 r2) s n c s2 n2 c2
| steps_bol s c : steps Bol s 0 c s 0 c
| steps_eol s n c : at_eol s = true -> steps Eol s n c s n c.

End Re.

(* ===================================================================== *)
(** ** Paths *)
(* ===================================================================== *)

(** A [pathlib] path on a POSIX system: whether it starts at the root,
    and its components. *)
Record Path : Type := mkPath {
  is_absolute : bool;
  parts : list string
}.

(** [p / name], for a single relative component [name] *)
Definition path_div (p : Path) (name : string) : Path :=
  mkPath (is_absolute p) (parts p ++ [name]).

Fixpoint strip_parts (base p : list string) : option (list string) :=
  match base, p with
  | [], _ => Some p
  | b :: base', x :: p' => if String.eqb b x then strip_parts base' p' else None
  | _ :: _, [] => None
  end.

(** [p.relative_to(base)]; [None] stands for the [ValueError] raised when
    [p] is not below [base]. *)
Definition relative_to (p base : Path) : option Path :=
  if Bool.eqb (is_absolute p) (is_absolute base) then
    mkPath false <$> strip_parts (parts base) (parts p)
  else None.

(** [str(p)] *)
Definition path_str (p : Path) : string :=
  if is_absolute p then "/" +:+ Py.join "/" (parts p)
  else match parts p with
       | [] => "."
       | _ => Py.join "/" (parts p)
       end.

(* ===================================================================== *)
(** ** The parsers of [DependencyScanner] *)
(* ===================================================================== *)

Module Parsers.
Import Re.

(** A (name, version) pair, and the value a parser returns. *)
Definition dep : Type := string * string.

(** The text of a group that took part in the match. *)
Definition group_text (m : matchobj) (i : nat) : string :=
  default EmptyString (group m i).

Definition lines (content : string) : list string := Py.split newline content.

(** *** package.json and composer.json

    One pass over the lines with the flag [in_deps]; [opens] tells
    whether a line opens the block. *)
Definition block_step (opens : string -> bool) (st : bool * list dep)
    (line : string) : bool * list dep :=
  let '(in_deps, deps) := st in
  if opens line then (true, deps)                        (* continue *)
  else if in_deps then
    if Py.contains "}" line then (false, deps)           (* continue *)
    else match search PACKAGE_JSON_PATTERN line with
         | Some m => (in_deps, deps ++ [(group_text m 1, group_text m 2)])
         | None => (in_deps, deps)
         end
  else (in_deps, deps).

Definition key (name : string) : string := dq +:+ name +:+ dq.

Definition opens_dependencies (line : string) : bool :=
  Py.contains (key "dependencies") line
  || Py.contains (key "devDependencies") line.

Definition parse_package_json (content : string) (file_path : Path)
    : list dep :=
  snd (fold_left (block_step opens_dependencies) (lines content) (false, [])).

Definition opens_require (line : string) : bool :=
  Py.contains (key "require") line.

Definition parse_composer (content : string) (file_path : Path) : list dep :=
  snd (fold_left (block_step opens_require) (lines content) (false, [])).

(** *** The lock files: skipped *)
Definition parse_package_lock (content : string) (file_path : Path)
    : list dep := [].
Definition parse_pipfile_lock (content : string) (file_path : Path)
    : list dep := [].
Definition parse_go_sum (content : string) (file_path : Path)
    : list dep := [].
Definition parse_gemfile_lock (content : string) (file_path : Path)
    : list dep := [].
Definition parse_cargo_lock (content : string) (file_path : Path)
    : list dep := [].

(** *** requirements.txt *)
Definition requirements_step (deps : list dep) (line : string) : list dep :=
  let line := Py.strip line in
  if negb (Py.is_empty line) && negb (Py.startswith "#" line) then
    match match_ REQUIREMENTS_PATTERN line with
    | Some m =>
        let name := group_text m 1 in
        let version := Py.or_default (group m 2) "*" in
        deps ++ [(name, version)]
    | None => deps
    end
  else deps.

Definition parse_requirements (content : string) (file_path : Path)
    : list dep :=
  fold_left requirements_step (lines content) [].

(** *** Pipfile *)
Definition quote_chars : string := String dquote (String squote EmptyString).

Definition pipfile_step (st : bool * list dep) (line : string)
    : bool * list dep :=
  let '(in_packages, deps) := st in
  if Py.startswith "[packages]" (Py.strip line) then (true, deps)
  else
    let in_packages :=
      if Py.startswith "[" (Py.strip line) then false else in_packages in
    if in_packages && Py.contains "=" line then
      let '(p0, p1) := Py.split1 "=" line in
      let name := Py.strip p0 in
      let version := Py.strip_chars quote_chars (Py.strip p1) in
      if negb (Py.is_empty name) then (in_packages, deps ++ [(name, version)])
      else (in_packages, deps)
    else (in_packages, deps).

Definition parse_pipfile (content : string) (file_path : Path) : list dep :=
  snd (fold_left pipfile_step (lines content) (false, [])).

(** *** go.mod *)
Definition go_mod_step (deps : list dep) (line : string) : list dep :=
  let line := Py.strip line in
  if negb (Py.is_empty line) && negb (Py.startswith "//" line) then
    match match_ GO_MOD_PATTERN line with
    | Some m => deps ++ [(group_text m 1, group_text m 2)]
    | None => deps
    end
  else deps.

Definition parse_go_mod (content : string) (file_path : Path) : list dep :=
  fold_left go_mod_step (lines content) [].

(** *** Gemfile *)
Definition gemfile_step (deps : list dep) (m : matchobj) : list dep :=
  let name := group_text m 1 in
  let version := Py.or_default (group m 2) "*" in
  deps ++ [(name, version)].

Definition parse_gemfile (content : string) (file_path : Path) : list dep :=
  fold_left gemfile_step (finditer GEMFILE_PATTERN content) [].

(** *** Cargo.toml *)
Definition cargo_step (st : bool * list dep) (line : string)
    : bool * list dep :=
  let '(in_deps, deps) := st in
  if Py.contains "[dependencies]" line then (true, deps)   (* continue *)
  else
    let in_deps :=
      if in_deps && Py.startswith "[" (Py.strip line) then false
      else in_deps in
    if in_deps then
      match match_ CARGO_PATTERN line with
      | Some m => (in_deps, deps ++ [(group_text m 1, group_text m 2)])
      | None => (in_deps, deps)
      end
    else (in_deps, deps).

Definition parse_cargo (content : string) (file_path : Path) : list dep :=
  snd (fold_left cargo_step (lines content) (false, [])).

(** *** pom.xml *)

(** One turn of the loop over [range(min(len(artifacts), len(versions)))].
    The two subscripts are in range for every such [i]; out of range
    Python would raise, and the turn adds nothing here. *)
Definition pom_step (artifacts groups versions : list string)
    (deps : list dep) (i : nat) : list dep :=
  let group :=
    if i <? length groups then default EmptyString (groups !! i)
    else "unknown" in
  match artifacts !! i, versions !! i with
  | Some a, Some v => deps ++ [(group +:+ ":" +:+ a, v)]
  | _, _ => deps
  end.

Definition parse_pom (content : string) (file_path : Path) : list dep :=
  let artifacts := findall1 POM_ARTIFACT_PATTERN content in
  let groups := findall1 POM_GROUP_PATTERN content in
  let versions := findall1 POM_VERSION_PATTERN content in
  fold_left (pom_step artifacts groups versions)
    (seq 0 (min (length artifacts) (length versions))) [].

(** *** build.gradle *)
Definition gradle_step (deps : list dep) (m : matchobj) : list dep :=
  let parts := Py.split ":" (group_text m 1) in
  if 3 <=? length parts then
    match parts with
    | p0 :: p1 :: p2 :: _ => deps ++ [(p0 +:+ ":" +:+ p1, p2)]
    | _ => deps
    end
  else deps.

Definition parse_gradle (content : string) (file_path : Path) : list dep :=
  fold_left gradle_step (finditer GRADLE_PATTERN content) [].

End Parsers.

(* ===================================================================== *)
(** ** The tables of the script *)
(* ===================================================================== *)

(** [DEPENDENCY_FILES]: file name to (ecosystem, name of the parser). *)
Definition DEPENDENCY_FILES : gmap string (string * string) :=
  list_to_map [
    ("package.json", ("npm", "parse_package_json"));
    ("package-lock.json", ("npm", "parse_package_lock"));
    ("requirements.txt", ("pip", "parse_requirements"));
    ("Pipfile", ("pip", "parse_pipfile"));
    ("Pipfile.lock", ("pip", "parse_pipfile_lock"));
    ("go.mod", ("go", "parse_go_mod"));
    ("go.sum", ("go", "parse_go_sum"));
    ("Gemfile", ("gem", "parse_gemfile"));
    ("Gemfile.lock", ("gem", "parse_gemfile_lock"));
    ("Cargo.toml", ("cargo", "parse_cargo"));
    ("Cargo.lock", ("cargo", "parse_cargo_lock"));
    ("pom.xml", ("maven", "parse_pom"));
    ("build.gradle", ("gradle", "parse_gradle"));
    ("composer.json", ("composer", "parse_composer"))
  ].

(** [PRUNE_DIRS] *)
Definition PRUNE_DIRS : gset string :=
  list_to_set [
    ".git"; ".svn"; ".hg";
    "node_modules"; "vendor"; "bower_components";
    "__pycache__"; ".pytest_cache"; ".tox";
    "venv"; "env"; ".env"; ".venv";
    "target"; "build"; "dist"; ".build";
    ".idea"; ".vscode"; ".vs"
  ].

(* ===================================================================== *)
(** ** Exceptions, the file system, and the scanner's state *)
(* ===================================================================== *)

(** The exception classes the handlers of the script tell apart.
    [IOError] is [OSError]; [UnicodeDecodeError] is a [ValueError]. *)
Inductive exn : Type :=
| OSError (msg : string)
| UnicodeDecodeError (msg : string)
| ValueError (msg : string)
| OtherError (cls msg : string).

Definition exn_str (e : exn) : string :=
  match e with
  | OSError m | UnicodeDecodeError m | ValueError m | OtherError _ m => m
  end.

Definition is_OSError (e : exn) : bool :=
  match e with OSError _ => true | _ => false end.
Definition is_UnicodeDecodeError (e : exn) : bool :=
  match e with UnicodeDecodeError _ => true | _ => false end.
Definition is_ValueError (e : exn) : bool :=
  match e with UnicodeDecodeError _ | ValueError _ => true | _ => false end.

Inductive result (A : Type) : Type :=
| Ok (a : A)
| Raise (e : exn).
Arguments Ok {A} a.
Arguments Raise {A} e.

(** A file as the script can observe it: what [open] followed by
    [f.read()] gives with [encoding='utf-8'], and what the retry gives
    with [encoding='latin-1']. *)
Record file_data : Type := mkFile {
  read_utf8 : result string;
  read_latin1 : result string
}.

(** A directory: its sub-directories and its files, in listing order. *)
#[warnings="-register-all"]
Inductive tree : Type :=
| Node (dirs : list (string * tree)) (files : list (string * file_data)).

(** One entry of [self.dependencies] (a dict with these four keys). *)
Record DependencyRecord : Type := mkDep {
  ecosystem : string;
  package : string;
  version : string;
  file : string
}.

(** What a run changes: the list [self.dependencies], the lines printed
    to standard error, and the trace of the paths given to [open]. *)
Record state : Type := mkState {
  dependencies : list DependencyRecord;
  stderr : list string;
  opened : list Path
}.

Definition init_state : state := mkState [] [] [].

(** *** Statements that change the state and may raise *)

Definition M (A : Type) : Type := state -> result A * state.

Definition ret {A} (a : A) : M A := fun st => (Ok a, st).

Definition bind {A B} (m : M A) (f : A -> M B) : M B :=
  fun st =>
    match m st with
    | (Ok a, st') => f a st'
    | (Raise e, st') => (Raise e, st')
    end.

Definition raise {A} (e : exn) : M A := fun st => (Raise e, st).

Definition lift {A} (r : result A) : M A := fun st => (r, st).

(** [try: body except <classes>: handler]; what [body] did to the state
    before it raised stays done. *)
Definition try_except {A} (body : M A) (handles : exn -> bool)
    (handler : exn -> M A) : M A :=
  fun st =>
    match body st with
    | (Ok a, st') => (Ok a, st')
    | (Raise e, st') => if handles e then handler e st' else (Raise e, st')
    end.

Declare Scope py_scope.
Delimit Scope py_scope with py.
Notation "x <- m ;; k" := (bind m (fun x => k))
  (at level 100, m at next level, right associativity) : py_scope.
Notation "m ;;; k" := (bind m (fun _ => k))
  (at level 100, right associativity) : py_scope.

Section ForEach.
Context {A : Type} (body : A -> M unit).

(** [for x in l: body] *)
Fixpoint for_each (l : list A) : M unit :=
  match l with
  | [] => ret tt
  | x :: l' => bind (body x) (fun _ => for_each l')
  end.
End ForEach.

Definition append_dependency (r : DependencyRecord) : M unit :=
  fun st => (Ok tt, mkState (dependencies st ++ [r]) (stderr st) (opened st)).

(** [print(line, file=sys.stderr)] *)
Definition print_err (line : string) : M unit :=
  fun st => (Ok tt, mkState (dependencies st) (stderr st ++ [line]) (opened st)).

Inductive encoding : Type := utf_8 | latin_1.

(** [with open(file_path, 'r', encoding=enc) as f: content = f.read()] *)
Definition open_read (file_path : Path) (fd : file_data) (enc : encoding)
    : M string :=
  fun st =>
    (match enc with utf_8 => read_utf8 fd | latin_1 => read_latin1 fd end,
     mkState (dependencies st) (stderr st) (opened st ++ [file_path])).

(* ===================================================================== *)
(** ** [DependencyScanner] *)
(* ===================================================================== *)

Module Scan.
Import Parsers.
Local Open Scope py_scope.

(** A parser method: from the content and the path to the pairs, or an
    exception. *)
Definition parser : Type := string -> Path -> result (list dep).

Section Scanner.
(** [getattr(self, name)] on the parser names, and [self.root_path]. *)
Variable getattr_self : string -> option parser.
Variable root_path : Path.

(** The body shared by the two branches of [_parse_dependency_file]:
    read, parse, then append one record per pair. *)
Definition read_parse_append (parse : parser) (ecosystem : string)
    (file_path : Path) (fd : file_data) (enc : encoding) : M unit :=
  content <- open_read file_path fd enc ;;
  deps <- lift (parse content file_path) ;;
  for_each (fun '(name, version) =>
    match relative_to file_path root_path with
    | Some rel =>
        append_dependency (mkDep ecosystem name version (path_str rel))
    | None => raise (ValueError "path is not in the subpath of the root")
    end) deps.

Definition _parse_dependency_file (file_path : Path) (filename : string)
    (fd : file_data) : M unit :=
  match DEPENDENCY_FILES !! filename with
  | None => raise (OtherError "KeyError" filename)
  | Some (ecosystem, parser_name) =>
      match getattr_self parser_name with
      | None => raise (OtherError "AttributeError" parser_name)
      | Some parse =>
          try_except
            (read_parse_append parse ecosystem file_path fd utf_8)
            is_UnicodeDecodeError
            (fun _ => read_parse_append parse ecosystem file_path fd latin_1)
      end
  end.

(** The three handlers of [scan], tried in order; the last one takes
    every exception. *)
Definition report (file_path : Path) (e : exn) : M unit :=
  if is_OSError e then
    print_err ("Warning: Cannot read " +:+ path_str file_path +:+ ": "
               +:+ exn_str e)
  else if is_ValueError e then
    print_err ("Warning: Invalid format in " +:+ path_str file_path +:+ ": "
               +:+ exn_str e)
  else
    print_err ("Error: Unexpected error parsing " +:+ path_str file_path
               +:+ ": " +:+ exn_str e).

(** The body of [for file in files] *)
Definition scan_file (root : Path) (f : string * file_data) : M unit :=
  let '(file, fd) := f in
  if bool_decide (is_Some (DEPENDENCY_FILES !! file)) then
    let file_path := path_div root file in
    try_except (_parse_dependency_file file_path file fd)
      (fun _ => true) (report file_path)
  else ret tt.

(** The body of the loop over [os.walk]: it edits [dirs] in place and
    handles the files.  The value returned is what the list [dirs]
    holds when the body is done: [os.walk] reads that same list object
    when it resumes. *)
Definition scan_body (root : Path) (dirs : list string)
    (files : list (string * file_data)) : M (list string) :=
  let dirs := filter (fun d => d ∉ PRUNE_DIRS) dirs in
  for_each (scan_file root) files ;;;
  ret dirs.

(** [os.walk(top, topdown=True)] driving the loop body [body]: the
    directory is handed to the body first, then the walk descends, in
    listing order, into the sub-directories whose names the body left
    in the list. *)
Fixpoint os_walk
    (body : Path -> list string -> list (string * file_data) -> M (list string))
    (t : tree) (top : Path) : M unit :=
  match t with
  | Node dirs files =>
      kept <- body top (map fst dirs) files ;;
      for_each (fun '(d, sub) =>
        if bool_decide (d ∈ kept) then os_walk body sub (path_div top d)
        else ret tt) dirs
  end.

(** [scan]: the walk starts at [self.root_path]; the result is
    [self.dependencies]. *)
Definition scan_run (t : tree) : M unit := os_walk scan_body t root_path.

Definition scan (t : tree) (st : state) : list DependencyRecord :=
  dependencies (snd (scan_run t st)).
End Scanner.

(** The methods of the class. *)
Definition total (p : string -> Path -> list dep) : parser :=
  fun content file_path => Ok (p content file_path).

Definition methods : gmap string parser :=
  list_to_map [
    ("parse_package_json", total parse_package_json);
    ("parse_package_lock", total parse_package_lock);
    ("parse_requirements", total parse_requirements);
    ("parse_pipfile", total parse_pipfile);
    ("parse_pipfile_lock", total parse_pipfile_lock);
    ("parse_go_mod", total parse_go_mod);
    ("parse_go_sum", total parse_go_sum);
    ("parse_gemfile", total parse_gemfile);
    ("parse_gemfile_lock", total parse_gemfile_lock);
    ("parse_cargo", total parse_cargo);
    ("parse_cargo_lock", total parse_cargo_lock);
    ("parse_pom", total parse_pom);
    ("parse_gradle", total parse_gradle);
    ("parse_composer", total parse_composer)
  ].

Definition DependencyScanner : string -> option parser :=
  fun name => methods !! name.

End Scan.

(* ===================================================================== *)
(** ** [write_csv]: the excel dialect of the [csv] module *)
(* ===================================================================== *)

Module Csv.

(** [write_csv] hands the rows to [csv.DictWriter] of the Python
    standard library with its default dialect, excel: comma, double
    quote, [doublequote=True], [QUOTE_MINIMAL], line terminator CR LF.
    The module is not part of the sources; the writer and a reader for
    the same rules are modelled here. *)

Definition delimiter : ascii := ","%char.
Definition quotechar : ascii := Re.dquote.
Definition CR : ascii := "013"%char.
Definition LF : ascii := "010"%char.
Definition lineterminator : string := String CR (String LF EmptyString).

(** A character that makes [QUOTE_MINIMAL] quote the field: the
    delimiter, the quote character, or a character of the line
    terminator. *)
Definition special (c : ascii) : bool :=
  Py.eqc c delimiter || Py.eqc c quotechar || Py.eqc c CR || Py.eqc c LF.

Fixpoint has_special (s : string) : bool :=
  match s with
  | EmptyString => false
  | String c s' => special c || has_special s'
  end.

(** [doublequote=True]: a quote character inside a field is written
    twice. *)
Fixpoint escape (s : string) : string :=
  match s with
  | EmptyString => EmptyString
  | String c s' =>
      if Py.eqc c quotechar then String c (String c (escape s'))
      else String c (escape s')
  end.

Definition quoted (s : string) : string :=
  String quotechar (escape s +:+ String quotechar EmptyString).

(** Modelled from the spec: a field as [csv.writer] writes it (the
    module is missing from the sources), under the specification's
    standard CSV quoting for embedded commas and quotes. *)
Definition write_field (f : string) : string :=
  if has_special f then quoted f else f.

(** Modelled from the spec: [writer.writerow(fields)] of the missing
    [csv] module, comma-delimited; a row made of one empty field is
    written quoted. *)
Definition writerow (fields : list string) : string :=
  match fields with
  | [EmptyString] => quoted EmptyString +:+ lineterminator
  | _ => Py.join (String delimiter EmptyString) (map write_field fields)
         +:+ lineterminator
  end.

Definition fieldnames : list string :=
  ["ecosystem"; "package"; "version"; "file"].

(** [rowdict.get(key, restval)] on a dependency record *)
Definition row_get (r : DependencyRecord) (k : string) : string :=
  if String.eqb k "ecosystem" then ecosystem r
  else if String.eqb k "package" then package r
  else if String.eqb k "version" then version r
  else if String.eqb k "file" then file r
  else EmptyString.

(** [DictWriter._dict_to_list] *)
Definition dict_to_list (r : DependencyRecord) : list string :=
  map (row_get r) fieldnames.

(** What [writeheader()] followed by [writerows(dependencies)] puts in
    the file. *)
Definition csv_text (dependencies : list DependencyRecord) : string :=
  writerow fieldnames
  +:+ Py.join EmptyString (map (fun r => writerow (dict_to_list r)) dependencies).

(** What becomes of [open(output_file, 'w', ...)] and of the writes
    inside the [with] block: the file is opened and written; or [open]
    raises and no file is made; or a write raises, and the file holds
    what had been written by then. *)
Inductive write_outcome : Type :=
| Written
| OpenFailed (e : exn)
| WriteFailed (e : exn) (partial : string).

(** What [write_csv] leaves behind: the lines printed to standard error
    and to standard output, and the file, if one was made, with what it
    holds. *)
Record written : Type := mkWritten {
  w_stderr : list string;
  w_stdout : list string;
  w_file : option (string * string)
}.

(** [write_csv]; [output path text] tells what becomes of writing
    [text] to the file at [path].  The script has no handler around
    [open] or the writes: an exception raised there leaves
    [write_csv], and the line on standard output is not printed. *)
Definition write_csv (output : string -> string -> write_outcome)
    (dependencies : list DependencyRecord) (output_file : string)
    : result unit * written :=
  match dependencies with
  | [] => (Ok tt, mkWritten ["No dependencies found."] [] None)
  | _ =>
      match output output_file (csv_text dependencies) with
      | Written =>
          (Ok tt,
           mkWritten []
             ["Written " +:+ pretty (length dependencies)
              +:+ " dependencies to " +:+ output_file]
             (Some (output_file, csv_text dependencies)))
      | OpenFailed e => (Raise e, mkWritten [] [] None)
      | WriteFailed e partial =>
          (Raise e, mkWritten [] [] (Some (output_file, partial)))
      end
  end.

(** *** Reading back: standard CSV quoting

    A reader for the same dialect: fields separated by the delimiter,
    records ended by CR, LF or CR LF, a quoted field running to its
    closing quote, a doubled quote inside it standing for one. *)
Inductive mode : Type :=
| StartRecord | StartField | InField | InQuoted | QuoteSeen | AfterCR.

Record reader : Type := mkReader {
  r_rows : list (list string);
  r_fields : list string;
  r_field : string;
  r_mode : mode
}.

Definition add_char (r : reader) (c : ascii) (m : mode) : reader :=
  mkReader (r_rows r) (r_fields r) (r_field r +:+ String c EmptyString) m.

Definition save_field (r : reader) : reader :=
  mkReader (r_rows r) (r_fields r ++ [r_field r]) EmptyString StartField.

Definition end_record (r : reader) (c : ascii) : reader :=
  mkReader (r_rows r ++ [r_fields r ++ [r_field r]]) [] EmptyString
    (if Py.eqc c CR then AfterCR else StartRecord).

Definition is_eol (c : ascii) : bool := Py.eqc c CR || Py.eqc c LF.

Definition start_field (r : reader) (c : ascii) : reader :=
  if Py.eqc c quotechar then
    mkReader (r_rows r) (r_fields r) (r_field r) InQuoted
  else if Py.eqc c delimiter then save_field r
  else if is_eol c then end_record r c
  else add_char r c InField.

Definition start_record (r : reader) (c : ascii) : reader :=
  if Py.eqc c CR then mkReader (r_rows r) [] EmptyString AfterCR
  else if Py.eqc c LF then mkReader (r_rows r) [] EmptyString StartRecord
  else start_field r c.

Definition step (r : reader) (c : ascii) : reader :=
  match r_mode r with
  | StartRecord => start_record r c
  | AfterCR =>
      if Py.eqc c LF then mkReader (r_rows r) [] EmptyString StartRecord
      else start_record r c
  | StartField => start_field r c
  | InField =>
      if Py.eqc c delimiter then save_field r
      else if is_eol c then end_record r c
      else add_char r c InField
  | InQuoted =>
      if Py.eqc c quotechar then
        mkReader (r_rows r) (r_fields r) (r_field r) QuoteSeen
      else add_char r c InQuoted
  | QuoteSeen =>
      if Py.eqc c quotechar then add_char r c InQuoted
      else if Py.eqc c delimiter then save_field r
      else if is_eol c then end_record r c
      else add_char r c InField
  end.

Fixpoint feed (r : reader) (s : string) : reader :=
  match s with
  | EmptyString => r
  | String c s' => feed (step r c) s'
  end.

(** At the end of the text a record in progress is closed. *)
Definition finish (r : reader) : list (list string) :=
  match r_mode r with
  | StartRecord | AfterCR => r_rows r
  | _ => r_rows r ++ [r_fields r ++ [r_field r]]
  end.

(** Modelled from the spec: re-parsing a text as CSV, with the reader
    above; no reader is part of the sources. *)
Definition read_csv (text : string) : list (list string) :=
  finish (feed (mkReader [] [] EmptyString StartRecord) text).

End Csv.

(* ===================================================================== *)
(** ** [main] *)
(* ===================================================================== *)

Module Cli.

(** What the process finds outside: [os.path.isdir], for a root
    directory its resolved path and the tree below it, and what becomes
    of writing a text to the file at a path. *)
Record env : Type := mkEnv {
  isdir : string -> bool;
  resolve : string -> Path;
  tree_at : string -> tree;
  output : string -> string -> Csv.write_outcome
}.

(** What a run of the script leaves behind.  [out_stderr] holds the
    lines the script prints itself; [uncaught] is the exception that
    ended the run, if one did: the interpreter then writes its
    traceback to standard error and the exit status is 1. *)
Record outcome : Type := mkOutcome {
  exit_status : nat;
  out_stderr : list string;
  out_stdout : list string;
  out_file : option (string * string);
  out_opened : list Path;
  uncaught : option exn
}.

(** [main()] with [sys.argv = argv] *)
Definition main (e : env) (argv : list string) : outcome :=
  if length argv <? 2 then
    mkOutcome 1 ["Usage: build-deps-csv.py <root_directory> [output.csv]"]
      [] None [] None                                     (* sys.exit(1) *)
  else
    let root_dir := default EmptyString (argv !! 1) in
    let output_file :=
      if 2 <? length argv then default EmptyString (argv !! 2)
      else "dependencies.csv" in
    if negb (isdir e root_dir) then
      mkOutcome 1 ["Error: " +:+ root_dir +:+ " is not a directory"]
        [] None [] None                                   (* sys.exit(1) *)
    else
      let st := snd (Scan.scan_run Scan.DependencyScanner (resolve e root_dir)
                       (tree_at e root_dir) init_state) in
      let '(r, w) := Csv.write_csv (output e) (dependencies st) output_file in
      match r with
      | Ok _ =>
          mkOutcome 0 (stderr st ++ Csv.w_stderr w) (Csv.w_stdout w)
            (Csv.w_file w) (opened st) None
      | Raise x =>                            (* no handler: traceback, 1 *)
          mkOutcome 1 (stderr st ++ Csv.w_stderr w) (Csv.w_stdout w)
            (Csv.w_file w) (opened st) (Some x)
      end.

End Cli.

(* ===================================================================== *)
(** ** Sample manifests *)
(* ===================================================================== *)

Module Samples.
Import Parsers.

Definition nl : string := String Re.newline EmptyString.
Definition text (ls : list string) : string := Py.join nl ls.
(** [q s] is [s] between double quotes. *)
Definition q (s : string) : string := Re.dq +:+ s +:+ Re.dq.

(** The requirements file of the specification. *)
Definition requirements_txt : string :=
  text ["requests>=2.25.1"; "flask==1.1.2"; "numpy"; "# comment"; "django>=3.0"].

(** A Cargo.toml whose lines start in the first column. *)
Definition cargo_toml : string :=
  text ["[package]";
        "name = " +:+ q "myapp";
        "version = " +:+ q "0.1.0";
        "";
        "[dependencies]";
        "serde = " +:+ q "1.0";
        "tokio = " +:+ q "1.17"].

(** The content of [test_parse_cargo_toml]: a triple-quoted literal
    inside the test method, so every line carries the indentation of the
    test source, eight blanks. *)
Definition cargo_toml_of_test : string :=
  text ["";
        "        [package]";
        "        name = " +:+ q "myapp";
        "        version = " +:+ q "0.1.0";
        "        ";
        "        [dependencies]";
        "        serde = " +:+ q "1.0";
        "        tokio = " +:+ q "1.17";
        "        "].

(** A package.json whose whole text is one line. *)
Definition package_json_one_line : string :=
  "{" +:+ q "dependencies" +:+ ": {" +:+ q "a" +:+ ": " +:+ q "1.0" +:+ "}}".

(** A package.json whose dependencies object sits on one line, followed
    by another key. *)
Definition dependencies_line : string :=
  "  " +:+ q "dependencies" +:+ ": {" +:+ q "a" +:+ ": " +:+ q "1.0" +:+ "},".

Definition package_json_deps_on_a_line : string :=
  text ["{";
        dependencies_line;
        "  " +:+ q "license" +:+ ": " +:+ q "MIT";
        "}"].


Definition any_path : Path := mkPath false ["manifest"].

End Samples.

(* ===================================================================== *)
(** ** Predicates used in the statements *)
(* ===================================================================== *)

(** Every pair has a name. *)
Definition named (deps : list Parsers.dep) : Prop :=
  Forall (fun d => fst d <> EmptyString) deps.

(** [p] followed by the components [ds] *)
Definition path_app (p : Path) (ds : list string) : Path :=
  mkPath (is_absolute p) (parts p ++ ds).

(** The records [_parse_dependency_file] appends for the pairs [deps] of
    the file at [rel] below the root. *)
Definition records (ecosystem : string) (rel : Path) (deps : list Parsers.dep)
    : list DependencyRecord :=
  map (fun d => mkDep ecosystem (fst d) (snd d) (path_str rel)) deps.

(** The files the walk reaches, in the order it reaches them, each with
    the directories that lead to it from the top. *)
Fixpoint visited (t : tree) : list (list string * (string * file_data)) :=
  match t with
  | Node dirs files =>
      map (fun f => ([], f)) files ++
      flat_map (fun e =>
        if bool_decide (fst e ∈ PRUNE_DIRS) then []
        else map (fun x => (fst e :: fst x, snd x)) (visited (snd e))) dirs
  end.

(** A name as a directory listing gives it: not empty, without a slash. *)
Definition valid_name (s : string) : bool :=
  negb (Py.is_empty s) && negb (Py.contains "/" s).

Fixpoint valid_names (t : tree) : bool :=
  match t with
  | Node dirs files =>
      forallb (fun e => valid_name (fst e) && valid_names (snd e)) dirs
      && forallb (fun f => valid_name (fst f)) files
  end.

(** [os.path.isabs] on a POSIX system *)
Definition isabs (s : string) : bool := Py.startswith "/" s.

(** What a record appended for the file at [file_path], by a parser
    [parse] under the tag [eco], looks like. *)
Definition appended_for (root_path file_path : Path) (eco : string)
    (parse : Scan.parser) (r : DependencyRecord) : Prop :=
  exists rel content deps d,
    relative_to file_path root_path = Some rel
    /\ parse content file_path = Ok deps /\ d ∈ deps
    /\ r = mkDep eco (fst d) (snd d) (path_str rel).

(** The loop body of [scan] at a file of [visited], for a walk that
    started at [top]. *)
Definition at_file (getattr_self : string -> option Scan.parser)
    (root_path top : Path) (x : list string * (string * file_data)) : M unit :=
  Scan.scan_file getattr_self root_path (path_app top (fst x)) (snd x).

(** *** Sample trees *)

Module SampleTrees.
Import Samples.

Definition plain (content : string) : file_data := mkFile (Ok content) (Ok content).

(** A file whose bytes are not valid UTF-8; read as Latin-1 they are
    the text [latin1]. *)
Definition not_utf8 (latin1 : string) : file_data :=
  mkFile (Raise (UnicodeDecodeError "'utf-8' codec can't decode byte 0xe9"))
         (Ok latin1).

Definition unreadable : file_data :=
  mkFile (Raise (OSError "[Errno 13] Permission denied"))
         (Raise (OSError "[Errno 13] Permission denied")).

Definition root : Path := mkPath true ["srv"; "repo"].

(** A project with a manifest at the top, one in [src/api], and
    manifests below [node_modules] and below [src/.git]. *)
Definition project : tree :=
  Node [("node_modules",
           Node [("left-pad", Node [] [("package.json", plain "{}")])]
                [("requirements.txt", plain "evil==6.6.6")]);
        ("src",
           Node [(".git", Node [] [("requirements.txt", plain "hidden==1")]);
                 ("api", Node [] [("requirements.txt", plain "flask==1.1.2")])]
                [("Pipfile", unreadable)])]
       [("README.md", plain "hello");
        ("Cargo.toml", plain cargo_toml)].

(** A requirements file in Latin-1: the comment holds the byte 0xe9. *)
Definition latin1_requirements : file_data :=
  not_utf8 (text ["# caf" +:+ String (ascii_of_nat 233) EmptyString;
                  "flask==1.1.2"]).

End SampleTrees.

(** The reader has read the whole of the field [f], after the rows
    [rows] and the fields [fields] of the current row, and waits for a
    delimiter or the end of the row. *)
Definition holding (r : Csv.reader) (rows : list (list string))
    (fields : list string) (f : string) : Prop :=
  Csv.r_rows r = rows /\ Csv.r_fields r = fields /\ Csv.r_field r = f
  /\ (Csv.r_mode r = Csv.InField \/ Csv.r_mode r = Csv.QuoteSeen
      \/ (Csv.r_mode r = Csv.StartField /\ f = EmptyString)).

(** The four fields of a record, in the order of the header. *)
Definition tuple (r : DependencyRecord) : list string :=
  [ecosystem r; package r; version r; file r].

(** *** Sample environments *)

Module SampleEnvs.

(** A machine where only [repo] is a directory, holding the sample
    project, and one where [empty] is a directory without manifests.
    On both, a file can be written anywhere but below [/no/such/dir],
    a directory that does not exist. *)
Definition output_unless_missing_dir (path text : string) : Csv.write_outcome :=
  if Py.startswith "/no/such/dir/" path then
    Csv.OpenFailed (OSError ("[Errno 2] No such file or directory: '"
                             +:+ path +:+ "'"))
  else Csv.Written.

Definition with_project : Cli.env :=
  Cli.mkEnv (fun p => String.eqb p "repo") (fun _ => SampleTrees.root)
    (fun _ => SampleTrees.project) output_unless_missing_dir.




End SampleEnvs.

(** *** The inputs of the repository's tests

    Each content is a triple-quoted literal inside a test method: it
    starts with a line end and every line carries the eight blanks of
    the test source. *)

Module TestInputs.
Import Samples.

Definition package_json : string :=
  text ["";
        "        {";
        "          " +:+ q "dependencies" +:+ ": {";
        "            " +:+ q "express" +:+ ": " +:+ q "^4.17.1" +:+ ",";
        "            " +:+ q "lodash" +:+ ": " +:+ q "^4.17.21";
        "          }";
        "        }";
        "        "].

Definition requirements_txt : string :=
  text ["";
        "        requests>=2.25.1";
        "        flask==1.1.2";
        "        numpy";
        "        # This is a comment";
        "        django>=3.0";
        "        "].

Definition go_mod : string :=
  text ["";
        "        module example.com/myapp";
        "        ";
        "        go 1.19";
        "        ";
        "        require (";
        "            github.com/gin-gonic/gin v1.7.7";
        "            github.com/stretchr/testify v1.7.0";
        "        )";
        "        "].

Definition gemfile : string :=
  text ["";
        "        gem 'rails', '6.1.0'";
        "        gem 'pg'";
        "        gem " +:+ q "redis" +:+ ", " +:+ q "4.2.5";
        "        "].

(** The three files of [test_directory_pruning]. *)
Definition one_line_package_json (name : string) : string :=
  "{" +:+ q "dependencies" +:+ ": {" +:+ q name +:+ ": " +:+ q "1.0.0" +:+ "}}".

Definition pruning_tree : tree :=
  Node [(".git",
           Node [] [("package.json",
                     mkFile (Ok (one_line_package_json "test"))
                            (Ok (one_line_package_json "test")))]);
        ("node_modules",
           Node [] [("package.json",
                     mkFile (Ok (one_line_package_json "test"))
                            (Ok (one_line_package_json "test")))])]
       [("package.json",
         mkFile (Ok (one_line_package_json "valid"))
                (Ok (one_line_package_json "valid")))].

End TestInputs.

(** A line that is empty or starts with a whitespace character. *)
Definition blank_or_indented (line : string) : bool :=
  match line with
  | EmptyString => true
  | String c _ => Py.isspace c
  end.

(** *** Predicates for the properties of the whole scan *)

(** [st] with the records [d], the lines [e] and the paths [o] added at
    the end of its three lists. *)
Definition extend (st : state) (d : list DependencyRecord) (e : list string)
    (o : list Path) : state :=
  mkState (dependencies st ++ d) (stderr st ++ e) (opened st ++ o).

(** The statement [m] only adds to the three lists, and what it adds and
    how it ends do not depend on what they held. *)
Definition writer_like {A} (m : M A) : Prop :=
  exists r d e o, forall st, m st = (r, extend st d e o).

(** The file [f] is an entry of the directory reached from the top of
    [t] through the sub-directories [ds]. *)
Fixpoint located (ds : list string) (t : tree) (f : string * file_data)
    {struct ds} : Prop :=
  match t with
  | Node dirs files =>
      match ds with
      | [] => f ∈ files
      | d :: ds' => exists sub, (d, sub) ∈ dirs /\ located ds' sub f
      end
  end.

(** The five lock files of [DEPENDENCY_FILES]. *)
Definition lock_files : list string :=
  ["package-lock.json"; "Pipfile.lock"; "go.sum"; "Gemfile.lock"; "Cargo.lock"].

(** The ecosystem tags of [DEPENDENCY_FILES]. *)
Definition ecosystems : list string :=
  ["npm"; "pip"; "go"; "gem"; "cargo"; "maven"; "gradle"; "composer"].

(** Every pair has a version. *)
Definition versioned (deps : list Parsers.dep) : Prop :=
  Forall (fun d => snd d <> EmptyString) deps.

(** The character [c] does not occur in [s]. *)
Definition no_char (c : ascii) (s : string) : bool :=
  Re.all_chars (fun x => negb (Py.eqc x c)) s.


(** The file name is a key of [DEPENDENCY_FILES]. *)
Definition is_manifest (f : string) : bool :=
  bool_decide (is_Some (DEPENDENCY_FILES !! f)).

(** [t] without the directories named in [PRUNE_DIRS], at every depth,
    and without the files whose names are not keys of
    [DEPENDENCY_FILES]. *)
Fixpoint relevant (t : tree) : tree :=
  match t with
  | Node dirs files =>
      Node
        (flat_map (fun e =>
           if bool_decide (fst e ∈ PRUNE_DIRS) then []
           else [(fst e, relevant (snd e))]) dirs)
        (filter (fun f => is_manifest (fst f) = true) files)
  end.


(** Every file of [t] can be read as UTF-8. *)
Fixpoint utf8_readable (t : tree) : bool :=
  match t with
  | Node dirs files =>
      forallb (fun e => utf8_readable (snd e)) dirs
      && forallb (fun f => match read_utf8 (snd f) with
                           | Ok _ => true
                           | Raise _ => false
                           end) files
  end.

(** The records of the walk that starts in the directory [t] at the
    path [top], on a scanner that held none. *)
Definition walk_records (getattr_self : string -> option Scan.parser)
    (root_path : Path) (t : tree) (top : Path) : list DependencyRecord :=
  dependencies
    (snd (Scan.os_walk (Scan.scan_body getattr_self root_path) t top
            init_state)).

(** The records of the files [files] of the directory at [top], on a
    scanner that held none. *)
Definition files_records (getattr_self : string -> option Scan.parser)
    (root_path top : Path) (files : list (string * file_data))
    : list DependencyRecord :=
  dependencies
    (snd (for_each (Scan.scan_file getattr_self root_path top) files
            init_state)).

(* ===================================================================== *)
(** * Properties *)
(* ===================================================================== *)

(** ** Strings *)

Module PyFacts.
Import Py.
#[local] Arguments String.append : simpl nomatch.

Lemma eqc_eq a b : eqc a b = true <-> a = b.
Proof. apply Ascii.eqb_eq. Qed.

Lemma eqc_refl a : eqc a a = true.
Proof. apply Ascii.eqb_refl. Qed.

Lemma is_empty_false s : is_empty s = false <-> s <> EmptyString.
Proof. destruct s; simpl; split; congruence. Qed.

Lemma sapp_nil_r s : s +:+ EmptyString = s.
Proof. induction s as [|c s IH]; simpl; [done | by rewrite IH]. Qed.

Lemma sapp_assoc s1 s2 s3 : (s1 +:+ s2) +:+ s3 = s1 +:+ s2 +:+ s3.
Proof. induction s1 as [|c s1 IH]; simpl; [done | by rewrite IH]. Qed.

Lemma sapp_length s1 s2 :
  String.length (s1 +:+ s2) = String.length s1 + String.length s2.
Proof. induction s1 as [|c s1 IH]; simpl; [done | by rewrite IH]. Qed.

Lemma sapp_not_empty_r s1 s2 : s2 <> EmptyString -> s1 +:+ s2 <> EmptyString.
Proof. destruct s1; simpl; congruence. Qed.

Lemma substring_app_l w s : substring 0 (String.length w) (w +:+ s) = w.
Proof.
  induction w as [|c w IH]; simpl.
  - by destruct s.
  - by rewrite IH.
Qed.

(** A text without the separator is the only piece. *)
Lemma split_no_sep sep s :
  contains (String sep EmptyString) s = false -> split sep s = [s].
Proof.
  induction s as [|c s IH]; simpl; [done|].
  intros H. apply orb_false_iff in H as [H1 H2].
  rewrite andb_true_r in H1.
  rewrite Ascii.eqb_sym in H1. unfold eqc in *. rewrite H1.
  by rewrite (IH H2).
Qed.

End PyFacts.

(** ** The matcher *)

Module ReFacts.
Import Re PyFacts.
#[local] Arguments String.append : simpl nomatch.

Lemma drop_prefix_spec l s s' : drop_prefix l s = Some s' -> s = l +:+ s'.
Proof.
  revert s. induction l as [|a l IH]; intros s H; simpl in *.
  - congruence.
  - destruct s as [|b s]; [done|].
    destruct (Py.eqc a b) eqn:E; [|done].
    apply eqc_eq in E as ->. by rewrite (IH _ H).
Qed.

Lemma steps_star_span p s n c s' n' c' :
  steps (Star p) s n c s' n' c' ->
  exists w, s = w +:+ s' /\ n' = n + String.length w /\ c' = c
            /\ all_chars p w = true.
Proof.
  remember (Star p) as r eqn:Hr. induction 1; try discriminate.
  - exists EmptyString. simpl. repeat split; lia.
  - injection Hr as ->. destruct (IHsteps eq_refl) as (w & -> & -> & _ & Hw).
    exists (String a w). simpl. rewrite H, Hw. repeat split; lia.
Qed.

Section Sound.
Context {R : Type}.

Lemma star_sound p (k : cont) s n c (x : R) :
  star p k s n c = Some x ->
  exists s' n', steps (Star p) s n c s' n' c /\ k s' n' c = Some x.
Proof.
  revert n. induction s as [|a s IH]; intros n H; simpl in H.
  - exists EmptyString, n. split; [constructor | done].
  - destruct (p a) eqn:Hp.
    + destruct (star p k s (S n) c) as [y|] eqn:E.
      * injection H as ->. destruct (IH _ E) as (s' & n' & Hs & Hk).
        exists s', n'. split; [by constructor | done].
      * exists (String a s), n. split; [constructor | done].
    + exists (String a s), n. split; [constructor | done].
Qed.

(** Whatever the matcher returns comes from a match of the pattern
    followed by the continuation. *)
Lemma run_sound r : forall s n c (k : cont) (x : R),
  run r s n c k = Some x ->
  exists s' n' c', steps r s n c s' n' c' /\ k s' n' c' = Some x.
Proof.
  induction r as [|l|p|p|r IH|i r IH|r1 IH1 r2 IH2| |];
    intros s n c k x H; simpl in H.
  - exists s, n, c. split; [constructor | done].
  - destruct (drop_prefix l s) as [s'|] eqn:E; [|done].
    exists s', (n + String.length l), c. split; [by constructor | done].
  - destruct s as [|a s]; [done|]. destruct (p a) eqn:Hp; [|done].
    exists s, (S n), c. split; [by constructor | done].
  - destruct (star_sound _ _ _ _ _ _ H) as (s' & n' & Hs & Hk).
    by exists s', n', c.
  - destruct (run r s n c k) as [y|] eqn:E.
    + injection H as ->. destruct (IH _ _ _ _ _ E) as (s' & n' & c' & Hs & Hk).
      exists s', n', c'. split; [by constructor | done].
    + exists s, n, c. split; [apply steps_opt_none | done].
  - destruct (IH _ _ _ _ _ H) as (s' & n' & c' & Hs & Hk).
    eexists _, _, _. split; [by constructor | done].
  - destruct (IH1 _ _ _ _ _ H) as (s1 & n1 & c1 & Hs1 & Hk1).
    destruct (IH2 _ _ _ _ _ Hk1) as (s2 & n2 & c2 & Hs2 & Hk2).
    exists s2, n2, c2. split; [by econstructor | done].
  - destruct (Nat.eqb_spec n 0) as [->|]; [|done].
    exists s, 0, c. split; [constructor | done].
  - destruct (at_eol s) eqn:E; [|done].
    exists s, n, c. split; [by constructor | done].
Qed.
End Sound.

Lemma match_at_sound r s n m :
  match_at r s n = Some m ->
  exists s', steps r s n [] s' (m_end m) (m_caps m) /\ m_start m = n.
Proof.
  intros H. destruct (run_sound _ _ _ _ _ _ H) as (s' & n' & c' & Hs & Hk).
  injection Hk as <-. by exists s'.
Qed.

Lemma search_from_sound r s n m :
  search_from r s n = Some m ->
  exists s0 n0 s', steps r s0 n0 [] s' (m_end m) (m_caps m).
Proof.
  revert n. induction s as [|a s IH]; intros n H; simpl in H.
  - destruct (match_at r EmptyString n) eqn:E; [|done]. injection H as ->.
    destruct (match_at_sound _ _ _ _ E) as (s' & Hs & _). eauto.
  - destruct (match_at r (String a s) n) eqn:E.
    + injection H as ->.
      destruct (match_at_sound _ _ _ _ E) as (s' & Hs & _). eauto.
    + eauto.
Qed.

Lemma finditer_from_sound r s n skip m :
  m ∈ finditer_from r s n skip ->
  exists s0 n0 s', steps r s0 n0 [] s' (m_end m) (m_caps m).
Proof.
  revert n skip. induction s as [|a s IH]; intros n skip H; simpl in H.
  - destruct skip; [|by apply elem_of_nil in H].
    destruct (match_at r EmptyString n) eqn:E; [|by apply elem_of_nil in H].
    apply list_elem_of_singleton in H as ->.
    destruct (match_at_sound _ _ _ _ E) as (s' & Hs & _). eauto.
  - destruct skip; [|eauto].
    destruct (match_at r (String a s) n) eqn:E; [|eauto].
    apply elem_of_cons in H as [->|H]; [|eauto].
    destruct (match_at_sound _ _ _ _ E) as (s' & Hs & _). eauto.
Qed.

(** Taking a pattern apart, one constructor at a time. *)
Ltac invert_steps :=
  repeat lazymatch goal with
  | H : steps (Seq _ _) _ _ _ _ _ _ |- _ => inversion H; subst; clear H
  | H : steps (Grp _ _) _ _ _ _ _ _ |- _ => inversion H; subst; clear H
  | H : steps (Lit _) _ _ _ _ _ _ |- _ => inversion H; subst; clear H
  | H : steps (Set_ _) _ _ _ _ _ _ |- _ => inversion H; subst; clear H
  | H : steps (Opt _) _ _ _ _ _ _ |- _ => inversion H; subst; clear H
  | H : steps Bol _ _ _ _ _ _ |- _ => inversion H; subst; clear H
  | H : steps Eol _ _ _ _ _ _ |- _ => inversion H; subst; clear H
  | H : steps Eps _ _ _ _ _ _ |- _ => inversion H; subst; clear H
  | H : steps (Plus _) _ _ _ _ _ _ |- _ => unfold Plus in H
  end.

End ReFacts.

(** ** The parsers *)

Module ParserFacts.
Import Re Parsers PyFacts ReFacts.
#[local] Arguments String.append : simpl nomatch.

Lemma fold_left_inv {A B} (P : A -> Prop) (f : A -> B -> A) (l : list B) a :
  P a -> (forall a x, x ∈ l -> P a -> P (f a x)) -> P (fold_left f l a).
Proof.
  revert a. induction l as [|x l IH]; intros a Ha Hf; simpl; [done|].
  apply IH.
  - apply Hf; [left | done].
  - intros a' y Hy. apply Hf. by right.
Qed.

Lemma named_snoc deps name version :
  named deps -> name <> EmptyString -> named (deps ++ [(name, version)]).
Proof.
  intros H Hn. apply Forall_app. split; [done|]. by repeat constructor.
Qed.

(** Reading the captures off a match. *)
Ltac star_spans :=
  repeat lazymatch goal with
  | H : steps (Star _) _ _ _ _ _ _ |- _ =>
      apply steps_star_span in H as (? & ? & ? & ? & ?); subst
  end.

Ltac captures :=
  simpl in *; invert_steps; star_spans;
  unfold group_text, group;
  cbn [m_caps lookup_cap Nat.eqb default].

Lemma substring_cons_not_empty k a s :
  0 < k -> substring 0 k (String a s) <> EmptyString.
Proof. destruct k; [lia|]. discriminate. Qed.

Ltac name_not_empty := apply substring_cons_not_empty; lia.

(** *** The name captured by each pattern is not empty *)

Lemma cargo_match_name line m :
  match_ CARGO_PATTERN line = Some m ->
  exists rest,
    line = group_text m 1 +:+ rest /\ group_text m 1 <> EmptyString
    /\ all_chars name_char (group_text m 1) = true.
Proof.
  intros H. apply match_at_sound in H as (s' & H & _). destruct m.
  unfold CARGO_PATTERN in H. captures.
  match goal with
  | |- context [substring 0 ?k (String ?a (?w +:+ ?r))] =>
      replace (substring 0 k (String a (w +:+ r))) with (String a w)
        by (replace k with (S (String.length w)) by lia;
            simpl; by rewrite substring_app_l);
      exists r
  end.
  split; [done|]. split; [discriminate|].
  simpl. apply andb_true_iff. by split.
Qed.

Lemma requirements_match_name line m :
  match_ REQUIREMENTS_PATTERN line = Some m -> group_text m 1 <> EmptyString.
Proof.
  intros H. apply match_at_sound in H as (s' & H & _). destruct m.
  unfold REQUIREMENTS_PATTERN in H. captures; name_not_empty.
Qed.

Lemma go_mod_match_name line m :
  match_ GO_MOD_PATTERN line = Some m -> group_text m 1 <> EmptyString.
Proof.
  intros H. apply match_at_sound in H as (s' & H & _). destruct m.
  unfold GO_MOD_PATTERN in H. captures; name_not_empty.
Qed.

Lemma package_json_search_name line m :
  search PACKAGE_JSON_PATTERN line = Some m -> group_text m 1 <> EmptyString.
Proof.
  intros H. apply search_from_sound in H as (s0 & n0 & s' & H). destruct m.
  unfold PACKAGE_JSON_PATTERN in H. captures; name_not_empty.
Qed.

Lemma gemfile_finditer_name content m :
  m ∈ finditer GEMFILE_PATTERN content -> group_text m 1 <> EmptyString.
Proof.
  intros H. apply finditer_from_sound in H as (s0 & n0 & s' & H). destruct m.
  unfold GEMFILE_PATTERN in H. captures; name_not_empty.
Qed.

(** *** Every parser names its pairs *)

Lemma block_step_named opens st line :
  named (snd st) -> named (snd (block_step opens st line)).
Proof.
  destruct st as [in_deps deps]. unfold block_step. cbn [snd]. intros Hd.
  destruct (opens line); [done|]. destruct in_deps; [|done].
  destruct (Py.contains "}" line); [done|].
  destruct (search PACKAGE_JSON_PATTERN line) as [m|] eqn:E; [|done].
  cbn [snd]. apply named_snoc; [done|]. by eapply package_json_search_name.
Qed.

Lemma parse_package_json_named content file_path :
  named (parse_package_json content file_path).
Proof.
  unfold parse_package_json.
  apply (fold_left_inv (fun st => named (snd st))); [constructor|].
  intros st line _. apply block_step_named.
Qed.

Lemma parse_composer_named content file_path :
  named (parse_composer content file_path).
Proof.
  unfold parse_composer.
  apply (fold_left_inv (fun st => named (snd st))); [constructor|].
  intros st line _. apply block_step_named.
Qed.

Lemma parse_requirements_named content file_path :
  named (parse_requirements content file_path).
Proof.
  unfold parse_requirements. apply (fold_left_inv named); [constructor|].
  intros deps line _ Hd. unfold requirements_step.
  destruct (negb _ && negb _); [|done].
  destruct (match_ REQUIREMENTS_PATTERN (Py.strip line)) as [m|] eqn:E; [|done].
  apply named_snoc; [done|]. by eapply requirements_match_name.
Qed.

Lemma parse_pipfile_named content file_path :
  named (parse_pipfile content file_path).
Proof.
  unfold parse_pipfile.
  apply (fold_left_inv (fun st => named (snd st))); [constructor|].
  intros [in_packages deps] line _ Hd. unfold pipfile_step. cbn [snd] in *.
  destruct (Py.startswith "[packages]" (Py.strip line)); [done|].
  destruct (_ && Py.contains "=" line); [|done].
  destruct (Py.split1 "=" line) as [p0 p1].
  destruct (Py.is_empty (Py.strip p0)) eqn:E; cbn [negb snd]; [done|].
  apply named_snoc; [done|]. by apply is_empty_false.
Qed.

Lemma parse_go_mod_named content file_path :
  named (parse_go_mod content file_path).
Proof.
  unfold parse_go_mod. apply (fold_left_inv named); [constructor|].
  intros deps line _ Hd. unfold go_mod_step.
  destruct (negb _ && negb _); [|done].
  destruct (match_ GO_MOD_PATTERN (Py.strip line)) as [m|] eqn:E; [|done].
  apply named_snoc; [done|]. by eapply go_mod_match_name.
Qed.

Lemma parse_gemfile_named content file_path :
  named (parse_gemfile content file_path).
Proof.
  unfold parse_gemfile. apply (fold_left_inv named); [constructor|].
  intros deps m Hm Hd. unfold gemfile_step.
  apply named_snoc; [done|]. by eapply gemfile_finditer_name.
Qed.

Lemma cargo_step_named st line :
  named (snd st) -> named (snd (cargo_step st line)).
Proof.
  destruct st as [in_deps deps]. unfold cargo_step. cbn [snd]. intros Hd.
  destruct (Py.contains "[dependencies]" line); [done|].
  destruct (if in_deps && _ then false else in_deps); [|done].
  destruct (match_ CARGO_PATTERN line) as [m|] eqn:E; [|done].
  cbn [snd]. apply named_snoc; [done|].
  by destruct (cargo_match_name _ _ E) as (rest & _ & Hn & _).
Qed.

Lemma parse_cargo_named content file_path :
  named (parse_cargo content file_path).
Proof.
  unfold parse_cargo.
  apply (fold_left_inv (fun st => named (snd st))); [constructor|].
  intros st line _. apply cargo_step_named.
Qed.

Lemma parse_pom_named content file_path :
  named (parse_pom content file_path).
Proof.
  unfold parse_pom. apply (fold_left_inv named); [constructor|].
  intros deps i _ Hd. unfold pom_step.
  destruct (_ !! i) as [a|]; [|done]. destruct (_ !! i) as [v|]; [|done].
  apply named_snoc; [done|]. by apply sapp_not_empty_r.
Qed.

Lemma parse_gradle_named content file_path :
  named (parse_gradle content file_path).
Proof.
  unfold parse_gradle. apply (fold_left_inv named); [constructor|].
  intros deps m _ Hd. unfold gradle_step.
  destruct (3 <=? _); [|done].
  destruct (Py.split ":" (group_text m 1)) as [|p0 [|p1 [|p2 ps]]]; try done.
  apply named_snoc; [done|]. by apply sapp_not_empty_r.
Qed.

(** *** requirements.txt *)

(** C3. On the requirements file of the specification
    [parse_requirements] returns exactly the four pairs, in order: the
    comment line gives no pair and the bare name [numpy] gets the
    version [*]. *)
Theorem parse_requirements_sample file_path :
  parse_requirements Samples.requirements_txt file_path
  = [("requests", ">=2.25.1"); ("flask", "==1.1.2"); ("numpy", "*");
     ("django", ">=3.0")].
Proof. vm_compute. reflexivity. Qed.

(** A comment line never adds a pair, whatever follows the [#]. *)
Lemma requirements_step_comment deps line :
  Py.startswith "#" (Py.strip line) = true ->
  requirements_step deps line = deps.
Proof.
  intros H. unfold requirements_step. rewrite H.
  by rewrite andb_false_r.
Qed.

(** No whitespace character is a name character. *)
Lemma space_not_name_char c : Py.isspace c = true -> name_char c = false.
Proof.
  destruct c as [[] [] [] [] [] [] [] []]; vm_compute; congruence.
Qed.

Lemma all_name_chars_no_space name :
  all_chars name_char name = true -> all_chars non_space name = true.
Proof.
  induction name as [|c name IH]; [done|]. cbn [all_chars].
  intros [Hc Hn]%andb_true_iff. rewrite (IH Hn), andb_true_r.
  unfold non_space. destruct (Py.isspace c) eqn:E; [|done].
  by rewrite (space_not_name_char _ E) in Hc.
Qed.

Lemma rstrip_no_space s :
  all_chars non_space s = true -> Py.rstrip_by Py.isspace s = s.
Proof.
  induction s as [|c s IH]; [done|]. cbn [all_chars Py.rstrip_by].
  intros [Hc Hs]%andb_true_iff. rewrite (IH Hs).
  unfold non_space in Hc. apply negb_true_iff in Hc. by rewrite Hc.
Qed.

Lemma strip_no_space s :
  all_chars non_space s = true -> Py.strip s = s.
Proof.
  intros H. unfold Py.strip, Py.strip_by.
  assert (Py.lstrip_by Py.isspace s = s) as ->; [|by apply rstrip_no_space].
  destruct s as [|c s]; [done|]. cbn [all_chars] in H.
  apply andb_true_iff in H as [Hc _]. unfold non_space in Hc.
  apply negb_true_iff in Hc. cbn [Py.lstrip_by]. by rewrite Hc.
Qed.

Lemma star_all {R} p (k : cont) w n c (x : R) :
  all_chars p w = true ->
  k EmptyString (n + String.length w) c = Some x ->
  star p k w n c = Some x.
Proof.
  revert n. induction w as [|a w IH]; intros n Hw Hk; cbn [star].
  - by rewrite Nat.add_0_r in Hk.
  - cbn [all_chars] in Hw. apply andb_true_iff in Hw as [Ha Hw].
    rewrite Ha, (IH (S n)); [done | done |].
    cbn [String.length] in Hk. by rewrite Nat.add_succ_r in Hk.
Qed.

Lemma requirements_match_bare_name name :
  name <> EmptyString -> all_chars name_char name = true ->
  match_ REQUIREMENTS_PATTERN name
  = Some (MatchObj 0 (String.length name) [(1, name)]).
Proof.
  destruct name as [|a name]; [done|]. intros _ Hn. cbn [all_chars] in Hn.
  apply andb_true_iff in Hn as [Ha Hn].
  unfold match_, match_at, REQUIREMENTS_PATTERN, Plus.
  cbn [run Nat.eqb]. rewrite Ha.
  apply star_all; [done|]. cbn [star run at_eol].
  replace (1 + String.length name - 0) with (S (String.length name)) by lia.
  pose proof (substring_app_l (String a name) EmptyString) as Hsub.
  rewrite sapp_nil_r in Hsub. cbn [String.length] in Hsub.
  by rewrite Hsub.
Qed.

(** A bare name, with no version operator, gets the version [*]. *)
Lemma requirements_step_bare_name deps name :
  name <> EmptyString -> all_chars name_char name = true ->
  requirements_step deps name = deps ++ [(name, "*")].
Proof.
  intros Hne Hn. unfold requirements_step.
  rewrite (strip_no_space name) by by apply all_name_chars_no_space.
  rewrite (requirements_match_bare_name name Hne Hn).
  destruct name as [|a name]; [done|]. cbn [Py.is_empty negb andb].
  assert (Py.startswith "#" (String a name) = false) as ->; [|done].
  cbn [all_chars] in Hn. apply andb_true_iff in Hn as [Ha _].
  cbn [Py.startswith]. destruct (Py.eqc "#" a) eqn:E; [|done].
  apply eqc_eq in E as <-. done.
Qed.

(** *** Cargo.toml *)

Lemma parse_cargo_first_column file_path :
  parse_cargo Samples.cargo_toml file_path
  = [("serde", "1.0"); ("tokio", "1.17")].
Proof. vm_compute. reflexivity. Qed.

(** C2. On the content of the repository's own test
    [test_parse_cargo_toml], whose lines are indented, [parse_cargo]
    returns no pair at all, where the test asserts the two pairs
    [serde 1.0] and [tokio 1.17]. *)
Theorem parse_cargo_on_test_content file_path :
  parse_cargo Samples.cargo_toml_of_test file_path = [].
Proof. vm_compute. reflexivity. Qed.

(** Lines before the [[dependencies]] header, whatever they hold, add
    no pair and leave the flag down. *)
Lemma cargo_before_header pre :
  Forall (fun line => Py.contains "[dependencies]" line = false) pre ->
  fold_left cargo_step pre (false, []) = (false, []).
Proof.
  induction pre as [|line pre IH]; [done|].
  intros [Hl Hpre]%Forall_cons. cbn [fold_left].
  unfold cargo_step at 2. rewrite Hl. cbn [andb]. by apply IH.
Qed.

(** The pattern is anchored: a line that does not start with a name
    character does not match. *)
Lemma cargo_match_anchored c rest :
  name_char c = false -> match_ CARGO_PATTERN (String c rest) = None.
Proof.
  intros H. unfold match_, match_at, CARGO_PATTERN, Plus.
  cbn [run Nat.eqb]. by rewrite H.
Qed.

Lemma cargo_step_emits st line d :
  d ∈ snd (cargo_step st line) ->
  d ∈ snd st \/
  exists rest, line = fst d +:+ rest /\ fst d <> EmptyString
               /\ all_chars name_char (fst d) = true.
Proof.
  destruct st as [in_deps deps]. unfold cargo_step. cbn [snd].
  destruct (Py.contains "[dependencies]" line); [by left|].
  destruct (if in_deps && _ then false else in_deps); [|by left].
  destruct (match_ CARGO_PATTERN line) as [m|] eqn:E; [|by left].
  cbn [snd]. intros [H|H]%elem_of_app; [by left|].
  apply list_elem_of_singleton in H as ->. right. cbn [fst].
  by apply cargo_match_name.
Qed.

Lemma cargo_step_blank_or_indented st line :
  blank_or_indented line = true -> snd (cargo_step st line) = snd st.
Proof.
  destruct st as [in_deps deps]. intros Hl. unfold cargo_step. cbn [snd].
  destruct (Py.contains "[dependencies]" line); [done|].
  destruct (if in_deps && _ then false else in_deps); [|done].
  destruct line as [|c rest]; [done|]. cbn [blank_or_indented] in Hl.
  by rewrite (cargo_match_anchored _ _ (space_not_name_char _ Hl)).
Qed.

(** C10. Inside or outside a section, a line that starts with a
    whitespace character never adds a pair; every pair [parse_cargo]
    returns has a non-empty name, made of name characters, that is the
    very beginning of some line of the content; so a content whose
    lines are all empty or indented gives no pair at all. *)
Theorem parse_cargo_first_column_only :
  (forall in_deps deps c rest,
     Py.isspace c = true ->
     snd (cargo_step (in_deps, deps) (String c rest)) = deps)
  /\ (forall content file_path d,
        d ∈ parse_cargo content file_path ->
        exists line rest,
          line ∈ lines content /\ line = fst d +:+ rest
          /\ fst d <> EmptyString /\ all_chars name_char (fst d) = true)
  /\ (forall content file_path,
        Forall (fun line => blank_or_indented line = true) (lines content) ->
        parse_cargo content file_path = []).
Proof.
  split; [|split].
  - intros in_deps deps c rest Hc.
    by apply (cargo_step_blank_or_indented (in_deps, deps) (String c rest)).
  - intros content file_path. unfold parse_cargo.
    apply (fold_left_inv (fun st => forall d, d ∈ snd st -> _)).
    + intros d Hd. by apply elem_of_nil in Hd.
    + intros st line Hl IH d Hd.
      apply cargo_step_emits in Hd as [Hd|(rest & H1 & H2 & H3)]; [eauto|].
      by exists line, rest.
  - intros content file_path Hall. unfold parse_cargo.
    rewrite Forall_forall in Hall.
    apply (fold_left_inv (fun st => snd st = [])); [done|].
    intros st line Hl Hst. rewrite cargo_step_blank_or_indented; [done|].
    by apply Hall.
Qed.

Lemma parse_cargo_first_column_only_witness :
  snd (cargo_step (true, []) "  serde = 1") = [].
Proof.
  apply (proj1 parse_cargo_first_column_only true [] " "%char "serde = 1").
  reflexivity.
Defined.

(** *** package.json *)

Lemma block_step_emits opens st line d :
  d ∈ snd (block_step opens st line) ->
  d ∈ snd st \/
  (opens line = false /\
   exists m, search PACKAGE_JSON_PATTERN line = Some m
             /\ d = (group_text m 1, group_text m 2)).
Proof.
  destruct st as [in_deps deps]. unfold block_step. cbn [snd].
  destruct (opens line) eqn:Ho; [by left|]. destruct in_deps; [|by left].
  destruct (Py.contains "}" line); [by left|].
  destruct (search PACKAGE_JSON_PATTERN line) as [m|] eqn:E; [|by left].
  cbn [snd]. intros [H|H]%elem_of_app; [by left|].
  apply list_elem_of_singleton in H as ->. right. eauto.
Qed.

(** The line that opens a block adds no pair, and every pair returned
    was matched on a line that opens no block. *)
Lemma block_opening_line_is_skipped :
  (forall st line,
     opens_dependencies line = true ->
     snd (block_step opens_dependencies st line) = snd st)
  /\ (forall content file_path d,
        d ∈ parse_package_json content file_path ->
        exists line m,
          line ∈ lines content /\ opens_dependencies line = false
          /\ search PACKAGE_JSON_PATTERN line = Some m
          /\ d = (group_text m 1, group_text m 2)).
Proof.
  split.
  - intros [in_deps deps] line Ho. unfold block_step. by rewrite Ho.
  - intros content file_path. unfold parse_package_json.
    apply (fold_left_inv (fun st => forall d, d ∈ snd st -> _)).
    + intros d Hd. by apply elem_of_nil in Hd.
    + intros st line Hl IH d Hd.
      apply block_step_emits in Hd as [Hd|(Ho & m & Hm & ->)]; [eauto|].
      by exists line, m.
Qed.

(** C9: a defect of the code.  The [continue] on the line that opens a
    block skips the whole line, the test for the closing brace
    included.  Here the dependencies object sits on one line and
    another key follows: the block is never closed, the result is not
    the empty list the claim gives, and the key from outside the block
    is returned as a dependency.  On the one-line file of
    [test_directory_pruning] the same [continue] loses the pair the
    test expects. *)
Theorem parse_package_json_deps_on_a_line :
  Samples.dependencies_line ∈ lines Samples.package_json_deps_on_a_line
  /\ Py.contains (Samples.q "dependencies" +:+ ": {" +:+ Samples.q "a" +:+ ": "
                  +:+ Samples.q "1.0" +:+ "}") Samples.dependencies_line = true
  /\ parse_package_json Samples.package_json_deps_on_a_line Samples.any_path
     = [("license", "MIT")]
  /\ parse_package_json (TestInputs.one_line_package_json "valid")
       Samples.any_path
     = [].
Proof.
  split; [|split; [|split]].
  - vm_compute. right. left.
  - vm_compute. reflexivity.
  - vm_compute. reflexivity.
  - vm_compute. reflexivity.
Qed.

(** *** pom.xml *)

Lemma pom_group groups i :
  (if i <? length groups then default EmptyString (groups !! i) else "unknown")
  = default "unknown" (groups !! i).
Proof.
  destruct (Nat.ltb_spec i (length groups)) as [H|H].
  - by destruct (lookup_lt_is_Some_2 groups i H) as [g ->].
  - by rewrite (lookup_ge_None_2 groups i H).
Qed.

Lemma pom_loop artifacts groups versions n :
  n <= length artifacts -> n <= length versions ->
  fold_left (pom_step artifacts groups versions) (seq 0 n) []
  = map (fun i => (default "unknown" (groups !! i) +:+ ":"
                     +:+ default EmptyString (artifacts !! i),
                   default EmptyString (versions !! i)))
        (seq 0 n).
Proof.
  induction n as [|n IH]; intros Ha Hv; [done|].
  rewrite seq_S, fold_left_app, map_app, IH by lia. cbn [fold_left map].
  unfold pom_step at 1. rewrite pom_group. cbn [Nat.add].
  destruct (lookup_lt_is_Some_2 artifacts n) as [a ->]; [lia|].
  destruct (lookup_lt_is_Some_2 versions n) as [v ->]; [lia|].
  done.
Qed.



End ParserFacts.

(** ** The scan *)

Module ScanFacts.
Import Parsers Scan PyFacts ParserFacts.
#[local] Arguments String.append : simpl nomatch.

Lemma tree_ind' (P : tree -> Prop) :
  (forall dirs files, Forall (fun e => P (snd e)) dirs -> P (Node dirs files)) ->
  forall t, P t.
Proof.
  intros H. fix IH 1. intros [dirs files]. apply H.
  induction dirs as [|[d sub] dirs IHd]; constructor; [apply IH | apply IHd].
Qed.

(** *** Paths *)

Lemma path_app_nil p : path_app p [] = p.
Proof. destruct p. unfold path_app. simpl. by rewrite app_nil_r. Qed.

Lemma path_div_app p ds f : path_div (path_app p ds) f = path_app p (ds ++ [f]).
Proof. unfold path_div, path_app. simpl. by rewrite <- app_assoc. Qed.

Lemma path_app_div p d ds : path_app (path_div p d) ds = path_app p (d :: ds).
Proof. unfold path_div, path_app. simpl. by rewrite <- app_assoc. Qed.

Lemma strip_parts_app base rest : strip_parts base (base ++ rest) = Some rest.
Proof.
  induction base as [|b base IH]; simpl; [done|].
  by rewrite String.eqb_refl.
Qed.

(** A path below the root, taken relative to the root. *)
Lemma relative_to_below root ds :
  relative_to (path_app root ds) root = Some (mkPath false ds).
Proof.
  unfold relative_to, path_app. simpl.
  by rewrite Bool.eqb_reflx, strip_parts_app.
Qed.

(** *** Loops *)

Lemma for_each_app {A} (body : A -> M unit) l1 l2 st :
  (forall x st, fst (body x st) = Ok tt) ->
  for_each body (l1 ++ l2) st = for_each body l2 (snd (for_each body l1 st)).
Proof.
  intros Hb. revert st. induction l1 as [|x l1 IH]; intros st; simpl; [done|].
  unfold bind. specialize (Hb x st).
  destruct (body x st) as [[[]|e] st1]; simpl in Hb; [|done]. apply IH.
Qed.

Lemma for_each_total {A} (body : A -> M unit) l st :
  (forall x st, fst (body x st) = Ok tt) -> fst (for_each body l st) = Ok tt.
Proof.
  intros Hb. revert st. induction l as [|x l IH]; intros st; simpl; [done|].
  unfold bind. specialize (Hb x st).
  destruct (body x st) as [[[]|e] st1]; simpl in Hb; [|done]. apply IH.
Qed.

Lemma for_each_ext {A} (f g : A -> M unit) l st :
  (forall x st, x ∈ l -> f x st = g x st) -> for_each f l st = for_each g l st.
Proof.
  revert st. induction l as [|x l IH]; intros st H; simpl; [done|].
  unfold bind. rewrite (H x st) by left.
  destruct (g x st) as [[[]|e] st1]; [|done]. apply IH.
  intros y st' Hy. apply H. by right.
Qed.

Lemma for_each_map {A B} (h : A -> B) (body : B -> M unit) l st :
  for_each body (map h l) st = for_each (fun x => body (h x)) l st.
Proof.
  revert st. induction l as [|x l IH]; intros st; simpl; [done|].
  unfold bind. destruct (body (h x) st) as [[[]|e] st1]; [|done]. apply IH.
Qed.

(** An invariant of the state that the body keeps is kept by the loop. *)
Lemma for_each_inv {A} (P : state -> Prop) (body : A -> M unit) l st :
  (forall x st, x ∈ l -> P st -> P (snd (body x st))) ->
  P st -> P (snd (for_each body l st)).
Proof.
  revert st. induction l as [|x l IH]; intros st H Hst; simpl; [done|].
  unfold bind. pose proof (H x st (list_elem_of_here _ _) Hst) as H1.
  destruct (body x st) as [[[]|e] st1]; simpl in *; [|done].
  apply IH; [|done]. intros y st' Hy. apply H. by right.
Qed.

(** *** One file *)

Section PerFile.
Variable getattr_self : string -> option parser.
Variable root_path : Path.


Lemma append_loop_some eco file_path rel deps st :
  relative_to file_path root_path = Some rel ->
  for_each (fun '(name, version) =>
    match relative_to file_path root_path with
    | Some rel =>
        append_dependency (mkDep eco name version (path_str rel))
    | None => raise (ValueError "path is not in the subpath of the root")
    end) deps st
  = (Ok tt, mkState (dependencies st ++ records eco rel deps) (stderr st)
              (opened st)).
Proof.
  intros Hrel. rewrite Hrel. revert st.
  induction deps as [|[name version] deps IH]; intros st; simpl.
  - destruct st. simpl. by rewrite List.app_nil_r.
  - unfold bind. unfold append_dependency at 1.
    rewrite IH. simpl. by rewrite <- List.app_assoc.
Qed.

(** Either way [read_parse_append] ends, the path was opened once;
    when it raises, nothing else has changed; when it returns, the
    records of the file have been appended. *)
Lemma read_parse_append_raise parse eco file_path fd enc st e st' :
  read_parse_append root_path parse eco file_path fd enc st = (Raise e, st') ->
  st' = mkState (dependencies st) (stderr st) (opened st ++ [file_path]).
Proof.
  destruct (relative_to file_path root_path) as [rel|] eqn:Hrel;
    unfold read_parse_append, bind, open_read, lift;
    (destruct (match enc with utf_8 => _ | latin_1 => _ end) as [content|e1];
      [|by intros [= _ <-]]);
    (destruct (parse content file_path) as [deps|e1]; [|by intros [= _ <-]]).
  - by rewrite (append_loop_some eco _ rel).
  - destruct deps as [|[name version] deps]; simpl; [done|].
    unfold bind. rewrite Hrel. unfold raise. by intros [= _ <-].
Qed.

Lemma read_parse_append_ok parse eco file_path fd enc st st' :
  read_parse_append root_path parse eco file_path fd enc st = (Ok tt, st') ->
  exists new,
    st' = mkState (dependencies st ++ new) (stderr st)
            (opened st ++ [file_path])
    /\ Forall (appended_for root_path file_path eco parse) new.
Proof.
  destruct (relative_to file_path root_path) as [rel|] eqn:Hrel;
    unfold read_parse_append, bind, open_read, lift;
    (destruct (match enc with utf_8 => _ | latin_1 => _ end) as [content|e1];
      [|done]);
    (destruct (parse content file_path) as [deps|e1] eqn:Hp; [|done]).
  - rewrite (append_loop_some eco _ rel) by done.
    intros [= <-]. exists (records eco rel deps). split; [done|].
    apply Forall_forall. intros r Hr.
    apply list_elem_of_fmap in Hr as (d & -> & Hd).
    by exists rel, content, deps, d.
  - destruct deps as [|[name version] deps]; simpl.
    + intros [= <-]. exists []. split; [|constructor].
      simpl. by rewrite List.app_nil_r.
    + unfold bind. by rewrite Hrel.
Qed.

(** The effect of [_parse_dependency_file], by the way it ends. *)
Lemma parse_dependency_file_raise file_path filename fd st e st' :
  _parse_dependency_file getattr_self root_path file_path filename fd st = (Raise e, st') ->
  dependencies st' = dependencies st /\ stderr st' = stderr st
  /\ exists n, opened st' = opened st ++ replicate n file_path.
Proof.
  unfold _parse_dependency_file.
  destruct (DEPENDENCY_FILES !! filename) as [[eco pname]|];
    [|intros [= _ <-]; split; [done|split; [done|]];
      exists 0; simpl; by rewrite List.app_nil_r].
  destruct (getattr_self pname) as [parse|];
    [|intros [= _ <-]; split; [done|split; [done|]];
      exists 0; simpl; by rewrite List.app_nil_r].
  unfold try_except.
  destruct (read_parse_append _ parse eco file_path fd utf_8 st)
    as [[[]|e1] st1] eqn:E1; [done|].
  apply read_parse_append_raise in E1 as ->.
  destruct (is_UnicodeDecodeError e1).
  - intros E2. apply read_parse_append_raise in E2 as ->. simpl.
    split; [done|split; [done|]]. exists 2. simpl.
    by rewrite <- List.app_assoc.
  - intros [= _ <-]. simpl. split; [done|split; [done|]]. by exists 1.
Qed.

Lemma parse_dependency_file_ok file_path filename fd st st' :
  _parse_dependency_file getattr_self root_path file_path filename fd st = (Ok tt, st') ->
  exists eco pname parse new n,
    DEPENDENCY_FILES !! filename = Some (eco, pname)
    /\ getattr_self pname = Some parse
    /\ dependencies st' = dependencies st ++ new
    /\ Forall (appended_for root_path file_path eco parse) new
    /\ stderr st' = stderr st
    /\ opened st' = opened st ++ replicate n file_path.
Proof.
  unfold _parse_dependency_file.
  destruct (DEPENDENCY_FILES !! filename) as [[eco pname]|]; [|done].
  destruct (getattr_self pname) as [parse|] eqn:Hg; [|done].
  unfold try_except.
  destruct (read_parse_append _ parse eco file_path fd utf_8 st)
    as [[[]|e1] st1] eqn:E1.
  - intros [= <-]. apply read_parse_append_ok in E1 as (new & -> & Hnew).
    by exists eco, pname, parse, new, 1.
  - apply read_parse_append_raise in E1 as ->.
    destruct (is_UnicodeDecodeError e1); [|done].
    intros E2. apply read_parse_append_ok in E2 as (new & -> & Hnew).
    exists eco, pname, parse, new, 2. simpl.
    by rewrite <- List.app_assoc.
Qed.

Lemma report_effect file_path e st :
  exists line,
    report file_path e st
    = (Ok tt, mkState (dependencies st) (stderr st ++ [line]) (opened st)).
Proof.
  unfold report, print_err.
  destruct (is_OSError e); [eauto|]. destruct (is_ValueError e); eauto.
Qed.

(** [scan_file] never raises. *)
Lemma scan_file_total top f st : fst (scan_file getattr_self root_path top f st) = Ok tt.
Proof.
  destruct f as [file fd]. unfold scan_file.
  destruct (bool_decide _); [|done]. unfold try_except.
  destruct (_parse_dependency_file _ _ _ _ _ _) as [[[]|e] st1]; [done|].
  simpl. by destruct (report_effect (path_div top file) e st1) as [line ->].
Qed.

(** What [scan_file] leaves behind: only the file's own path is
    opened, and every record appended comes from a parser of the table
    applied to this file. *)
Lemma scan_file_effect top file fd st :
  exists new errs n,
    snd (scan_file getattr_self root_path top (file, fd) st)
    = mkState (dependencies st ++ new) (stderr st ++ errs)
        (opened st ++ replicate n (path_div top file))
    /\ Forall (fun r => exists eco pname parse,
                 DEPENDENCY_FILES !! file = Some (eco, pname)
                 /\ getattr_self pname = Some parse
                 /\ appended_for root_path (path_div top file) eco parse r) new.
Proof.
  unfold scan_file.
  destruct (bool_decide _).
  2:{ exists [], [], 0. simpl. rewrite !List.app_nil_r. by destruct st. }
  unfold try_except.
  destruct (_parse_dependency_file _ _ _ _ _ _) as [[[]|e] st1] eqn:E.
  - apply parse_dependency_file_ok in E
      as (eco & pname & parse & new & n & H1 & H2 & H3 & H4 & H5 & H6).
    exists new, [], n. simpl. rewrite List.app_nil_r, <- H3, <- H5, <- H6.
    split; [by destruct st1|].
    eapply Forall_impl; [exact H4|]. intros r Hr. by exists eco, pname, parse.
  - apply parse_dependency_file_raise in E as (H1 & H2 & n & H3).
    simpl. destruct (report_effect (path_div top file) e st1) as [line ->].
    exists [], [line], n. simpl. rewrite List.app_nil_r, H1, H2, H3.
    split; [done | constructor].
Qed.
End PerFile.

(** *** The walk *)

Section Walk.
Variable getattr_self : string -> option parser.
Variable root_path : Path.

Lemma at_file_total top x st : fst (at_file getattr_self root_path top x st) = Ok tt.
Proof. apply scan_file_total. Qed.

(** A name of the listing stays in [dirs] exactly when it is not in
    [PRUNE_DIRS]. *)
Lemma kept_iff (dirs : list (string * tree)) d :
  d ∈ map fst dirs ->
  bool_decide (d ∈ filter (fun d => d ∉ PRUNE_DIRS) (map fst dirs))
  = negb (bool_decide (d ∈ PRUNE_DIRS)).
Proof.
  intros Hd. destruct (decide (d ∈ PRUNE_DIRS)) as [Hp|Hp].
  - rewrite (bool_decide_eq_true_2 _ Hp). apply bool_decide_eq_false_2.
    intros [H _]%list_elem_of_filter. done.
  - rewrite (bool_decide_eq_false_2 _ Hp). apply bool_decide_eq_true_2.
    by apply list_elem_of_filter.
Qed.

(** The descent into the sub-directories [l] of a listing, given the
    names [kept] and the claim for every sub-tree. *)
Lemma walk_dirs (kept : list string) top (l : list (string * tree)) :
  (forall e, e ∈ l ->
     bool_decide (fst e ∈ kept) = negb (bool_decide (fst e ∈ PRUNE_DIRS))) ->
  Forall (fun e => forall top st,
            os_walk (scan_body getattr_self root_path) (snd e) top st
            = for_each (at_file getattr_self root_path top)
                (visited (snd e)) st) l ->
  forall st,
    for_each (fun '(d, sub) =>
      if bool_decide (d ∈ kept)
      then os_walk (scan_body getattr_self root_path) sub (path_div top d)
      else ret tt) l st
    = for_each (at_file getattr_self root_path top)
        (flat_map (fun e =>
           if bool_decide (fst e ∈ PRUNE_DIRS) then []
           else map (fun x => (fst e :: fst x, snd x)) (visited (snd e))) l)
        st.
Proof.
  induction l as [|[d sub] l IHl]; intros Hk IH st; [done|].
  apply Forall_cons in IH as [IHsub IH].
  cbn [for_each flat_map fst snd]. unfold bind at 1.
  rewrite for_each_app by apply at_file_total.
  pose proof (Hk (d, sub) (list_elem_of_here _ _)) as Hd. cbn [fst] in Hd.
  rewrite Hd.
  assert (Hk' : forall e, e ∈ l ->
            bool_decide (fst e ∈ kept)
            = negb (bool_decide (fst e ∈ PRUNE_DIRS))).
  { intros e He. apply Hk. by right. }
  destruct (bool_decide (d ∈ PRUNE_DIRS)); cbn [negb].
  - cbn [for_each ret snd]. by apply IHl.
  - cbn [snd] in IHsub. rewrite IHsub, for_each_map.
    rewrite (for_each_ext
               (fun x => at_file getattr_self root_path top (d :: fst x, snd x))
               (at_file getattr_self root_path (path_div top d))).
    2:{ intros x st' _. unfold at_file. cbn [fst snd].
        by rewrite path_app_div. }
    pose proof (for_each_total
                  (at_file getattr_self root_path (path_div top d))
                  (visited sub) st (at_file_total _)) as Hw.
    destruct (for_each (at_file getattr_self root_path (path_div top d))
                (visited sub) st) as [[[]|e] st2]; [|done].
    cbn [snd]. by apply IHl.
Qed.

(** The walk with the loop body of [scan] is the loop body run over
    the files of [visited], in that order. *)
Lemma os_walk_visited t : forall top st,
  os_walk (scan_body getattr_self root_path) t top st
  = for_each (at_file getattr_self root_path top) (visited t) st.
Proof.
  induction t as [dirs files IH] using tree_ind'. intros top st.
  cbn [os_walk visited]. unfold bind at 1. unfold scan_body, bind, ret.
  pose proof (for_each_total (scan_file getattr_self root_path top) files st
                (scan_file_total _ _ _)) as Hf.
  rewrite for_each_app by apply at_file_total.
  rewrite for_each_map.
  rewrite (for_each_ext (fun f => at_file getattr_self root_path top ([], f))
             (scan_file getattr_self root_path top)).
  2:{ intros f st' _. unfold at_file. cbn [fst snd].
      by rewrite path_app_nil. }
  destruct (for_each (scan_file getattr_self root_path top) files st)
    as [[[]|e] st1]; [|done]. cbn [snd].
  apply walk_dirs; [|done].
  intros [d sub] He. apply kept_iff.
  by apply (list_elem_of_fmap_2 fst dirs (d, sub)).
Qed.

(** No directory on the way to a visited file is in [PRUNE_DIRS]. *)
Lemma visited_not_pruned t : forall ds f d,
  (ds, f) ∈ visited t -> d ∈ ds -> d ∉ PRUNE_DIRS.
Proof.
  induction t as [dirs files IH] using tree_ind'. intros ds f d.
  cbn [visited]. intros [H|H]%elem_of_app Hd.
  - apply list_elem_of_fmap in H as (f' & [= -> ->] & _).
    by apply elem_of_nil in Hd.
  - apply list_elem_of_In, in_flat_map in H as ([d0 sub] & Hin & H).
    apply list_elem_of_In in Hin, H. cbn [fst snd] in H.
    destruct (decide (d0 ∈ PRUNE_DIRS)) as [Hp|Hp].
    + rewrite (bool_decide_eq_true_2 _ Hp) in H. by apply elem_of_nil in H.
    + rewrite (bool_decide_eq_false_2 _ Hp) in H.
      apply list_elem_of_fmap in H as ([ds' f'] & [= -> ->] & H).
      apply elem_of_cons in Hd as [->|Hd]; [done|].
      rewrite Forall_forall in IH.
      apply (IH (d0, sub) Hin ds' f' d H Hd).
Qed.
End Walk.

(** *** What the scan opens *)

Lemma scan_opened getattr_self root_path t st p :
  p ∈ opened (snd (scan_run getattr_self root_path t st)) ->
  p ∈ opened st \/
  exists ds f fd, (ds, (f, fd)) ∈ visited t /\ p = path_app root_path (ds ++ [f]).
Proof.
  unfold scan_run. rewrite os_walk_visited. revert p.
  apply (for_each_inv (fun st' => forall p, p ∈ opened st' -> _)); [|by left].
  intros [ds [f fd]] st' Hx IH p. unfold at_file. cbn [fst snd].
  destruct (scan_file_effect getattr_self root_path (path_app root_path ds)
              f fd st') as (new & errs & n & -> & _).
  cbn [opened]. intros [Hp|Hp]%elem_of_app; [by apply IH|].
  apply elem_of_replicate_inv in Hp as ->. right.
  exists ds, f, fd. by rewrite path_div_app.
Qed.

(** C1. A path that lies below a directory named in [PRUNE_DIRS],
    at any depth below the root of the scan and whatever the file is
    called, is never given to [open] by [scan]: the walk filters the
    names of the sub-directories before it descends. *)
Theorem scan_never_opens_below_pruned getattr_self root_path t st
    before d after f :
  d ∈ PRUNE_DIRS ->
  path_app root_path (before ++ d :: after ++ [f]) ∉ opened st ->
  path_app root_path (before ++ d :: after ++ [f])
  ∉ opened (snd (scan_run getattr_self root_path t st)).
Proof.
  intros Hd Hst Hp.
  apply scan_opened in Hp as [Hp|(ds & f' & fd & Hv & Hp)]; [done|].
  injection Hp as Hp. apply app_inv_head in Hp.
  change (d :: after ++ [f]) with ((d :: after) ++ [f]) in Hp.
  rewrite List.app_assoc in Hp. apply app_inj_tail in Hp as [<- _].
  apply (visited_not_pruned _ _ _ d Hv); [|done].
  apply elem_of_app. right. left.
Qed.

Lemma scan_never_opens_below_pruned_witness :
  path_app SampleTrees.root (["src"] ++ ".git" :: [] ++ ["requirements.txt"])
  ∉ opened (snd (scan_run DependencyScanner SampleTrees.root
                   SampleTrees.project init_state)).
Proof.
  apply (scan_never_opens_below_pruned DependencyScanner SampleTrees.root
           SampleTrees.project init_state ["src"] ".git" [] "requirements.txt").
  - vm_compute. reflexivity.
  - simpl. apply not_elem_of_nil.
Defined.

(** On the sample project the scan opens the three manifests outside
    the pruned directories and nothing else. *)
Example scan_project_opened :
  opened (snd (scan_run DependencyScanner SampleTrees.root
                 SampleTrees.project init_state))
  = [path_app SampleTrees.root ["Cargo.toml"];
     path_app SampleTrees.root ["src"; "Pipfile"];
     path_app SampleTrees.root ["src"; "api"; "requirements.txt"]].
Proof. vm_compute. reflexivity. Qed.

(** *** A file that fails *)

(** C8, as the code has it.  When [_parse_dependency_file] raises,
    whether on opening, reading or parsing and in the first attempt or
    in the Latin-1 retry, [self.dependencies] is what it was before the
    file, and the loop goes on with the next file after one line on
    standard error. *)
Theorem failed_file_leaves_dependencies getattr_self root_path top file fd
    rest st e st' :
  is_Some (DEPENDENCY_FILES !! file) ->
  _parse_dependency_file getattr_self root_path (path_div top file) file fd st
  = (Raise e, st') ->
  dependencies st' = dependencies st
  /\ exists line,
       for_each (scan_file getattr_self root_path top) ((file, fd) :: rest) st
       = for_each (scan_file getattr_self root_path top) rest
           (mkState (dependencies st) (stderr st ++ [line]) (opened st')).
Proof.
  intros Hin E.
  destruct (parse_dependency_file_raise _ _ _ _ _ _ _ _ E) as (Hd & He & _).
  split; [done|].
  destruct (report_effect (path_div top file) e st') as [line Hr].
  exists line. cbn [for_each]. unfold bind, scan_file at 1.
  rewrite (bool_decide_eq_true_2 _ Hin). unfold try_except.
  rewrite E. cbn [negb]. rewrite Hr. by rewrite Hd, He.
Qed.

Lemma failed_file_leaves_dependencies_witness :
  dependencies
    (snd (_parse_dependency_file DependencyScanner SampleTrees.root
            (path_div SampleTrees.root "Pipfile") "Pipfile"
            SampleTrees.unreadable init_state))
  = dependencies init_state.
Proof.
  refine (proj1 (failed_file_leaves_dependencies DependencyScanner
                   SampleTrees.root SampleTrees.root "Pipfile"
                   SampleTrees.unreadable [] init_state
                   (OSError "[Errno 13] Permission denied") _ _ _)).
  - vm_compute. eauto.
  - vm_compute. reflexivity.
Defined.

(** C8 as worded fails: here the first read raises
    [UnicodeDecodeError], the file is read again as Latin-1, and the
    list has grown when the file is done. *)
Lemma decode_error_then_records :
  read_utf8 SampleTrees.latin1_requirements
  = Raise (UnicodeDecodeError "'utf-8' codec can't decode byte 0xe9")
  /\ dependencies
       (snd (scan_file DependencyScanner SampleTrees.root SampleTrees.root
               ("requirements.txt", SampleTrees.latin1_requirements)
               init_state))
     = [mkDep "pip" "flask" "==1.1.2" "requirements.txt"]
  /\ dependencies
       (snd (scan_file DependencyScanner SampleTrees.root SampleTrees.root
               ("requirements.txt", SampleTrees.latin1_requirements)
               init_state))
     <> dependencies init_state.
Proof. vm_compute. repeat split; discriminate. Qed.

(** *** The records *)

(** Whatever a method of the class returns, its pairs are named. *)
Lemma methods_named pname parse content file_path deps :
  DependencyScanner pname = Some parse ->
  parse content file_path = Ok deps -> named deps.
Proof.
  unfold DependencyScanner, methods. intros H%elem_of_list_to_map_2.
  repeat (apply elem_of_cons in H as [[= -> ->]|H];
          [intros [= <-];
           first [ apply parse_package_json_named
                 | apply parse_requirements_named
                 | apply parse_pipfile_named
                 | apply parse_go_mod_named
                 | apply parse_gemfile_named
                 | apply parse_cargo_named
                 | apply parse_pom_named
                 | apply parse_gradle_named
                 | apply parse_composer_named
                 | constructor ]|]).
  by apply elem_of_nil in H.
Qed.

Lemma valid_name_spec x :
  valid_name x = true -> x <> EmptyString /\ isabs x = false.
Proof.
  unfold valid_name, isabs. intros [H1 H2]%andb_true_iff.
  apply negb_true_iff in H1, H2. split; [by apply is_empty_false|].
  destruct x as [|c x]; [done|]. cbn [Py.contains] in H2.
  by apply orb_false_iff in H2 as [H2 _].
Qed.

Lemma isabs_app x y : x <> EmptyString -> isabs (x +:+ y) = isabs x.
Proof.
  destruct x as [|c x]; [done|]. intros _. unfold isabs.
  cbn. by destruct (Py.eqc "/" c).
Qed.

(** Components that are names, joined by slashes, form a path that does
    not start at the root. *)
Lemma join_not_abs x l :
  valid_name x = true -> isabs (Py.join "/" (x :: l)) = false.
Proof.
  intros [Hx Ha]%valid_name_spec. destruct l as [|y l]; cbn [Py.join]; [done|].
  by rewrite isabs_app.
Qed.

Lemma visited_valid t : forall ds f fd,
  valid_names t = true -> (ds, (f, fd)) ∈ visited t ->
  Forall (fun x => valid_name x = true) (ds ++ [f]).
Proof.
  induction t as [dirs files IH] using tree_ind'. intros ds f fd.
  cbn [valid_names visited]. intros [Hdirs Hfiles]%andb_true_iff.
  rewrite forallb_forall in Hdirs, Hfiles.
  intros [H|H]%elem_of_app.
  - apply list_elem_of_fmap in H as (f' & [= -> <-] & H).
    apply list_elem_of_In, Hfiles in H. by repeat constructor.
  - apply list_elem_of_In, in_flat_map in H as ([d sub] & Hin & H).
    apply list_elem_of_In in H. cbn [fst snd] in H.
    destruct (bool_decide (d ∈ PRUNE_DIRS)); [by apply elem_of_nil in H|].
    apply list_elem_of_fmap in H as ([ds' [f' fd']] & [= -> <- <-] & H).
    pose proof (Hdirs _ Hin) as [Hd Hsub]%andb_true_iff. cbn [fst snd] in *.
    rewrite Forall_forall in IH. apply list_elem_of_In in Hin.
    constructor; [done|]. by apply (IH (d, sub) Hin ds' f fd).
Qed.

Lemma scan_records root_path t st r :
  r ∈ dependencies (snd (scan_run DependencyScanner root_path t st)) ->
  r ∈ dependencies st \/
  exists ds f fd,
    (ds, (f, fd)) ∈ visited t /\ package r <> EmptyString
    /\ file r = Py.join "/" (ds ++ [f]).
Proof.
  unfold scan_run. rewrite os_walk_visited. revert r.
  apply (for_each_inv (fun st' => forall r, r ∈ dependencies st' -> _));
    [|by left].
  intros [ds [f fd]] st' Hx IH r. unfold at_file. cbn [fst snd].
  destruct (scan_file_effect DependencyScanner root_path
              (path_app root_path ds) f fd st') as (new & errs & n & -> & Hnew).
  cbn [dependencies]. intros [Hr|Hr]%elem_of_app; [by apply IH|].
  rewrite Forall_forall in Hnew.
  destruct (Hnew r Hr) as (eco & pname & parse & _ & Hg & Ha).
  destruct Ha as (rel & content & deps & d & Hrel & Hp & Hd & ->).
  rewrite path_div_app, relative_to_below in Hrel. injection Hrel as <-.
  right. exists ds, f, fd. split; [done|]. cbn [package file]. split.
  - pose proof (methods_named _ _ _ _ _ Hg Hp) as Hn. unfold named in Hn.
    rewrite Forall_forall in Hn. by apply Hn.
  - unfold path_str. cbn [is_absolute parts]. by destruct ds.
Qed.

(** C4. Every record of a scan has a non-empty [package], and its
    [file] is the path of a visited manifest written from the scan root:
    the directories below the root and the file name joined by slashes,
    which is not an absolute path.  The parser does not matter. *)
Theorem records_named_and_relative root_path t r :
  valid_names t = true ->
  r ∈ scan DependencyScanner root_path t init_state ->
  package r <> EmptyString
  /\ isabs (file r) = false
  /\ exists ds f fd,
       (ds, (f, fd)) ∈ visited t /\ file r = Py.join "/" (ds ++ [f])
       /\ relative_to (path_app root_path (ds ++ [f])) root_path
          = Some (mkPath false (ds ++ [f])).
Proof.
  intros Hv Hr. unfold scan in Hr.
  apply scan_records in Hr as [Hr|(ds & f & fd & Hin & Hp & Hf)];
    [by apply elem_of_nil in Hr|].
  split; [done|]. split.
  - rewrite Hf. pose proof (visited_valid _ _ _ _ Hv Hin) as Hn.
    destruct ds as [|d ds]; cbn [app] in *;
      apply Forall_cons in Hn as [Hn _]; by apply join_not_abs.
  - exists ds, f, fd. split; [done|]. split; [done|]. apply relative_to_below.
Qed.

Lemma records_named_and_relative_witness :
  package (mkDep "pip" "flask" "==1.1.2" "src/api/requirements.txt")
  <> EmptyString
  /\ isabs (file (mkDep "pip" "flask" "==1.1.2" "src/api/requirements.txt"))
     = false.
Proof.
  pose proof (records_named_and_relative SampleTrees.root SampleTrees.project
                (mkDep "pip" "flask" "==1.1.2" "src/api/requirements.txt"))
    as H.
  destruct H as (H1 & H2 & _).
  - vm_compute. reflexivity.
  - vm_compute. right. right. left.
  - split; [exact H1 | exact H2].
Defined.

End ScanFacts.

(** ** The CSV file *)

Module CsvFacts.
Import Csv PyFacts.
#[local] Arguments String.append : simpl nomatch.

Lemma feed_app r a b : feed r (a +:+ b) = feed (feed r a) b.
Proof. revert r. induction a as [|c a IH]; intros r; simpl; [done | apply IH]. Qed.

Lemma special_false c :
  special c = false ->
  Py.eqc c delimiter = false /\ Py.eqc c quotechar = false
  /\ Py.eqc c CR = false /\ Py.eqc c LF = false.
Proof.
  unfold special. intros H.
  apply orb_false_iff in H as [H H4]. apply orb_false_iff in H as [H H3].
  by apply orb_false_iff in H as [H1 H2].
Qed.

(** Inside an unquoted field, ordinary characters pile up. *)
Lemma feed_plain f : forall rows fields cur,
  has_special f = false ->
  feed (mkReader rows fields cur InField) f
  = mkReader rows fields (cur +:+ f) InField.
Proof.
  induction f as [|c f IH]; intros rows fields cur H; simpl in *.
  - by rewrite sapp_nil_r.
  - apply orb_false_iff in H as [Hc Hf].
    apply special_false in Hc as (H1 & H2 & H3 & H4).
    unfold step, is_eol, add_char. cbn [r_mode r_rows r_fields r_field].
    rewrite H1, H3, H4. cbn [orb]. rewrite IH by done.
    by rewrite sapp_assoc.
Qed.

(** Inside a quoted field, the escaped text gives the text back. *)
Lemma feed_escaped f : forall rows fields cur,
  feed (mkReader rows fields cur InQuoted) (escape f)
  = mkReader rows fields (cur +:+ f) InQuoted.
Proof.
  induction f as [|c f IH]; intros rows fields cur; simpl.
  - by rewrite sapp_nil_r.
  - destruct (Py.eqc c quotechar) eqn:E; simpl.
    + unfold step at 2. cbn [r_mode r_rows r_fields r_field]. rewrite E.
      unfold step at 1. cbn [r_mode r_rows r_fields r_field]. rewrite E.
      unfold add_char. cbn [r_mode r_rows r_fields r_field].
      rewrite IH. by rewrite sapp_assoc.
    + unfold step at 1. cbn [r_mode r_rows r_fields r_field]. rewrite E.
      unfold add_char. cbn [r_mode r_rows r_fields r_field].
      rewrite IH. by rewrite sapp_assoc.
Qed.

(** A written field, read from the start of a field. *)
Lemma feed_field rows fields f :
  holding (feed (mkReader rows fields EmptyString StartField) (write_field f))
    rows fields f.
Proof.
  unfold write_field. destruct (has_special f) eqn:Hs.
  - unfold quoted. cbn [feed]. unfold step at 1, start_field.
    cbn [r_mode r_rows r_fields r_field]. rewrite eqc_refl.
    rewrite feed_app, feed_escaped. cbn [feed String.append].
    unfold step. cbn [r_mode r_rows r_fields r_field]. rewrite eqc_refl.
    unfold holding. cbn. eauto 6.
  - destruct f as [|c f].
    + unfold holding. cbn. eauto 8.
    + cbn [has_special] in Hs. apply orb_false_iff in Hs as [Hc Hf].
      apply special_false in Hc as (H1 & H2 & H3 & H4).
      cbn [feed]. unfold step at 1, start_field, is_eol, add_char.
      cbn [r_mode r_rows r_fields r_field]. rewrite H1, H2, H3, H4.
      cbn [orb String.append]. rewrite feed_plain by done.
      unfold holding. cbn. eauto 6.
Qed.

Lemma holding_delimiter r rows fields f :
  holding r rows fields f ->
  step r delimiter = mkReader rows (fields ++ [f]) EmptyString StartField.
Proof.
  intros (<- & <- & <- & [Hm|[Hm|[Hm Hf]]]); unfold step; rewrite Hm; done.
Qed.

Lemma holding_lineterminator r rows fields f :
  holding r rows fields f ->
  feed r lineterminator
  = mkReader (rows ++ [fields ++ [f]]) [] EmptyString StartRecord.
Proof.
  intros (<- & <- & <- & [Hm|[Hm|[Hm Hf]]]);
    cbn [feed lineterminator]; unfold step at 2; rewrite Hm; done.
Qed.

Lemma join_cons2 sep x y l :
  Py.join sep (x :: y :: l) = x +:+ sep +:+ Py.join sep (y :: l).
Proof. done. Qed.

(** The fields of a row and the line terminator, read from the start of
    a field. *)
Lemma feed_fields fs : forall rows fields,
  fs <> [] ->
  feed (mkReader rows fields EmptyString StartField)
    (Py.join (String delimiter EmptyString) (map write_field fs)
     +:+ lineterminator)
  = mkReader (rows ++ [fields ++ fs]) [] EmptyString StartRecord.
Proof.
  induction fs as [|f fs IH]; intros rows fields Hne; [done|].
  destruct fs as [|f2 fs].
  - cbn [map Py.join]. rewrite feed_app.
    by apply holding_lineterminator, feed_field.
  - cbn [map]. cbn [map] in IH. rewrite join_cons2, !sapp_assoc, feed_app.
    cbn [String.append feed].
    rewrite (holding_delimiter _ rows fields f) by apply feed_field.
    rewrite IH by done. by rewrite <- List.app_assoc.
Qed.

(** At the start of a record the reader does what it does at the start
    of a field, unless the character ends a line. *)
Lemma step_start_record rows c :
  is_eol c = false ->
  step (mkReader rows [] EmptyString StartRecord) c
  = step (mkReader rows [] EmptyString StartField) c.
Proof.
  unfold is_eol. intros [H1 H2]%orb_false_iff.
  unfold step, start_record. cbn [r_mode]. by rewrite H1, H2.
Qed.

Lemma write_field_head f c s :
  write_field f = String c s -> is_eol c = false.
Proof.
  unfold write_field. destruct (has_special f) eqn:Hs.
  - unfold quoted. by intros [= <- _].
  - intros ->. cbn [has_special] in Hs. apply orb_false_iff in Hs as [Hc _].
    apply special_false in Hc as (_ & _ & H3 & H4).
    unfold is_eol. by rewrite H3, H4.
Qed.

(** A written row does not start with a line end. *)
Lemma writerow_head fs :
  fs <> [] -> exists c s, writerow fs = String c s /\ is_eol c = false.
Proof.
  destruct fs as [|f fs]; [done|]. intros _.
  destruct fs as [|f2 fs].
  - destruct f as [|a f].
    + eexists _, _. split; [reflexivity | done].
    + unfold writerow. cbn [map Py.join].
      destruct (write_field (String a f)) as [|c s] eqn:E.
      * unfold write_field in E. by destruct (has_special (String a f)).
      * eexists _, _. split; [reflexivity|]. by eapply write_field_head.
  - assert (writerow (f :: f2 :: fs)
            = write_field f +:+ String delimiter EmptyString
              +:+ Py.join (String delimiter EmptyString)
                    (map write_field (f2 :: fs)) +:+ lineterminator) as ->.
    { unfold writerow. destruct f; cbn [map]; by rewrite join_cons2, !sapp_assoc. }
    destruct (write_field f) as [|c s] eqn:E.
    + eexists _, _. split; [reflexivity | done].
    + eexists _, _. split; [reflexivity|]. by eapply write_field_head.
Qed.

(** One written row read back: exactly its fields. *)
Lemma feed_writerow rows fs :
  fs <> [] ->
  feed (mkReader rows [] EmptyString StartRecord) (writerow fs)
  = mkReader (rows ++ [fs]) [] EmptyString StartRecord.
Proof.
  intros Hne. destruct (writerow_head fs Hne) as (c & s & E & Hc).
  assert (feed (mkReader rows [] EmptyString StartRecord) (writerow fs)
          = feed (mkReader rows [] EmptyString StartField) (writerow fs)) as ->.
  { rewrite E. cbn [feed]. by rewrite step_start_record. }
  destruct fs as [|f [|f2 fs]]; [done| |].
  - destruct f as [|a f].
    + done.
    + apply (feed_fields [String a f] rows []). done.
  - assert (writerow (f :: f2 :: fs)
            = Py.join (String delimiter EmptyString)
                (map write_field (f :: f2 :: fs)) +:+ lineterminator) as ->.
    { unfold writerow. by destruct f. }
    by apply (feed_fields (f :: f2 :: fs) rows []).
Qed.

Lemma join_empty_cons x l :
  Py.join EmptyString (x :: l) = x +:+ Py.join EmptyString l.
Proof. destruct l; cbn [Py.join]; [by rewrite sapp_nil_r | done]. Qed.

Lemma feed_rows rs : forall rows,
  Forall (fun fs => fs <> []) rs ->
  feed (mkReader rows [] EmptyString StartRecord)
    (Py.join EmptyString (map writerow rs))
  = mkReader (rows ++ rs) [] EmptyString StartRecord.
Proof.
  induction rs as [|fs rs IH]; intros rows H.
  - cbn. by rewrite List.app_nil_r.
  - apply Forall_cons in H as [Hfs H]. cbn [map].
    rewrite join_empty_cons, feed_app, feed_writerow, IH by done.
    by rewrite <- List.app_assoc.
Qed.

(** C7. For a non-empty list of records [write_csv] writes, wherever
    the file can be opened and written, a file whose text, read back
    under the quoting rules of the dialect, is the header row followed
    by one row per record holding the four fields of the record
    unchanged, commas, quotes and line ends included; and so is every
    written row on its own. *)
Theorem write_csv_round_trip dependencies output_file :
  dependencies <> [] ->
  exists text,
    (forall output,
       output output_file text = Written ->
       fst (write_csv output dependencies output_file) = Ok tt
       /\ w_file (snd (write_csv output dependencies output_file))
          = Some (output_file, text))
    /\ read_csv text
       = ["ecosystem"; "package"; "version"; "file"] :: map tuple dependencies
    /\ forall r, r ∈ dependencies ->
         read_csv (writerow (dict_to_list r)) = [tuple r].
Proof.
  intros Hne. exists (csv_text dependencies). split; [|split].
  - intros output Ho. unfold write_csv.
    destruct dependencies; [done|]. by rewrite Ho.
  - unfold read_csv, csv_text. rewrite feed_app, (feed_writerow []) by done.
    rewrite <- (map_map dict_to_list writerow), feed_rows.
    + cbn [finish r_mode r_rows app]. f_equal.
    + apply Forall_forall. intros fs Hfs.
      by apply list_elem_of_fmap in Hfs as (r & -> & _).
  - intros r _. unfold read_csv. by rewrite (feed_writerow []).
Qed.

Lemma write_csv_round_trip_witness :
  read_csv (writerow (dict_to_list
              (mkDep "pip" (Samples.q "x,y") "a, b" "dir,1/Pipfile")))
  = [tuple (mkDep "pip" (Samples.q "x,y") "a, b" "dir,1/Pipfile")].
Proof.
  destruct (write_csv_round_trip
              [mkDep "pip" (Samples.q "x,y") "a, b" "dir,1/Pipfile"]
              "dependencies.csv") as (text & _ & _ & H).
  - discriminate.
  - apply H. left.
Defined.

End CsvFacts.

(** ** The command line *)

Module CliFacts.
Import Cli.

(** The two ways [main] stops before the scan. *)
Lemma main_usage e argv :
  length argv < 2 ->
  main e argv
  = mkOutcome 1 ["Usage: build-deps-csv.py <root_directory> [output.csv]"]
      [] None [] None.
Proof.
  intros H. unfold main. by rewrite (proj2 (Nat.ltb_lt _ _) H).
Qed.

Lemma main_not_a_directory e argv root_dir :
  2 <= length argv -> argv !! 1 = Some root_dir -> isdir e root_dir = false ->
  main e argv
  = mkOutcome 1 ["Error: " +:+ root_dir +:+ " is not a directory"] [] None []
      None.
Proof.
  intros H Ha Hd. unfold main.
  rewrite (proj2 (Nat.ltb_ge _ _) H), Ha.
  change (default EmptyString (Some root_dir)) with root_dir. by rewrite Hd.
Qed.




(** On the sample project the scan completes with a warning for the
    unreadable Pipfile; the status is still 0 and the report is
    written. *)
Example main_on_project :
  let o := main SampleEnvs.with_project ["build-deps-csv.py"; "repo"; "out.csv"] in
  exit_status o = 0
  /\ out_stderr o
     = ["Warning: Cannot read /srv/repo/src/Pipfile: [Errno 13] Permission denied"]
  /\ out_stdout o = ["Written 3 dependencies to out.csv"]
  /\ (fst <$> out_file o) = Some "out.csv".
Proof. vm_compute. repeat split. Qed.

End CliFacts.

(** ** The repository's tests, run on the model *)

Module RepoTests.
Import Re Parsers Scan.

(** [TestRegexPatterns] *)
Example test_package_json_pattern :
  (fun m => (group m 1, group m 2))
    <$> search PACKAGE_JSON_PATTERN
          (Samples.q "lodash" +:+ ": " +:+ Samples.q "^4.17.21")
  = Some (Some "lodash", Some "^4.17.21").
Proof. vm_compute. reflexivity. Qed.

Example test_requirements_pattern :
  is_Some (match_ REQUIREMENTS_PATTERN "requests>=2.25.1")
  /\ is_Some (match_ REQUIREMENTS_PATTERN "flask==1.1.2")
  /\ is_Some (match_ REQUIREMENTS_PATTERN "numpy")
  /\ is_Some (match_ REQUIREMENTS_PATTERN "django~=3.0").
Proof. vm_compute. repeat split; eauto. Qed.

Example test_go_mod_pattern :
  (fun m => (group m 1, group m 2))
    <$> match_ GO_MOD_PATTERN "    github.com/gin-gonic/gin v1.7.7"
  = Some (Some "github.com/gin-gonic/gin", Some "1.7.7").
Proof. vm_compute. reflexivity. Qed.

(** [TestDependencyScanner]: the parsers that strip or search the line
    pass their tests on the indented contents. *)
Example test_parse_package_json :
  parse_package_json TestInputs.package_json Samples.any_path
  = [("express", "^4.17.1"); ("lodash", "^4.17.21")].
Proof. vm_compute. reflexivity. Qed.

Example test_parse_requirements_txt :
  parse_requirements TestInputs.requirements_txt Samples.any_path
  = [("requests", ">=2.25.1"); ("flask", "==1.1.2"); ("numpy", "*");
     ("django", ">=3.0")].
Proof. vm_compute. reflexivity. Qed.

Example test_parse_go_mod :
  parse_go_mod TestInputs.go_mod Samples.any_path
  = [("module", "example.com/myapp"); ("go", "1.19"); ("require", "(");
     ("github.com/gin-gonic/gin", "1.7.7");
     ("github.com/stretchr/testify", "1.7.0")].
Proof. vm_compute. reflexivity. Qed.

Example test_parse_gemfile :
  parse_gemfile TestInputs.gemfile Samples.any_path
  = [("rails", "6.1.0"); ("pg", "*"); ("redis", "4.2.5")].
Proof. vm_compute. reflexivity. Qed.

(** [test_directory_pruning] expects one record, for [valid]; the two
    pruned manifests are indeed never opened, but the manifest at the
    top is a one-line object and gives no pair. *)
Example test_directory_pruning :
  let st := snd (scan_run DependencyScanner SampleTrees.root
                   TestInputs.pruning_tree init_state) in
  opened st = [path_app SampleTrees.root ["package.json"]]
  /\ dependencies st = [].
Proof. vm_compute. split; reflexivity. Qed.

End RepoTests.

(** ** The scan as a whole *)

Module ScanLaws.
Import Parsers Scan PyFacts ParserFacts ScanFacts.
#[local] Arguments String.append : simpl nomatch.

(** *** Statements that only add to the state *)

Lemma extend_nil st : extend st [] [] [] = st.
Proof. destruct st. unfold extend. cbn. by rewrite !List.app_nil_r. Qed.

Lemma extend_extend st d1 e1 o1 d2 e2 o2 :
  extend (extend st d1 e1 o1) d2 e2 o2
  = extend st (d1 ++ d2) (e1 ++ e2) (o1 ++ o2).
Proof. unfold extend. cbn. by rewrite !List.app_assoc. Qed.

Lemma writer_ret {A} (a : A) : writer_like (ret a).
Proof. exists (Ok a), [], [], []. intros st. by rewrite extend_nil. Qed.

Lemma writer_raise {A} e : writer_like (@raise A e).
Proof. exists (Raise e), [], [], []. intros st. by rewrite extend_nil. Qed.

Lemma writer_lift {A} (r : result A) : writer_like (lift r).
Proof. exists r, [], [], []. intros st. by rewrite extend_nil. Qed.

Lemma writer_append_dependency r : writer_like (append_dependency r).
Proof.
  exists (Ok tt), [r], [], []. intros st.
  unfold append_dependency, extend. by rewrite !List.app_nil_r.
Qed.

Lemma writer_print_err line : writer_like (print_err line).
Proof.
  exists (Ok tt), [], [line], []. intros st.
  unfold print_err, extend. by rewrite !List.app_nil_r.
Qed.

Lemma writer_open_read file_path fd enc :
  writer_like (open_read file_path fd enc).
Proof.
  eexists _, [], [], [file_path]. intros st.
  unfold open_read, extend. by rewrite !List.app_nil_r.
Qed.

Lemma writer_bind {A B} (m : M A) (f : A -> M B) :
  writer_like m -> (forall a, writer_like (f a)) -> writer_like (bind m f).
Proof.
  intros (r & d & e & o & Hm) Hf. destruct r as [a|x].
  - destruct (Hf a) as (r' & d' & e' & o' & Hfa).
    exists r', (d ++ d'), (e ++ e'), (o ++ o'). intros st.
    unfold bind. by rewrite Hm, Hfa, extend_extend.
  - exists (Raise x), d, e, o. intros st. unfold bind. by rewrite Hm.
Qed.

Lemma writer_try_except {A} (body : M A) handles handler :
  writer_like body -> (forall e, writer_like (handler e)) ->
  writer_like (try_except body handles handler).
Proof.
  intros (r & d & e & o & Hm) Hh. destruct r as [a|x].
  - exists (Ok a), d, e, o. intros st. unfold try_except. by rewrite Hm.
  - destruct (handles x) eqn:Hx.
    + destruct (Hh x) as (r' & d' & e' & o' & Hhx).
      exists r', (d ++ d'), (e ++ e'), (o ++ o'). intros st.
      unfold try_except. by rewrite Hm, Hx, Hhx, extend_extend.
    + exists (Raise x), d, e, o. intros st.
      unfold try_except. by rewrite Hm, Hx.
Qed.

Lemma writer_for_each {A} (body : A -> M unit) l :
  (forall x, writer_like (body x)) -> writer_like (for_each body l).
Proof.
  intros Hb. induction l as [|x l IH]; cbn [for_each].
  - apply writer_ret.
  - apply writer_bind; [apply Hb | intros _; apply IH].
Qed.

Lemma writer_read_parse_append root_path parse eco file_path fd enc :
  writer_like (read_parse_append root_path parse eco file_path fd enc).
Proof.
  unfold read_parse_append.
  apply writer_bind; [apply writer_open_read|]. intros content.
  apply writer_bind; [apply writer_lift|]. intros deps.
  apply writer_for_each. intros [name version].
  destruct (relative_to file_path root_path);
    [apply writer_append_dependency | apply writer_raise].
Qed.

Lemma writer_scan_file getattr_self root_path top f :
  writer_like (scan_file getattr_self root_path top f).
Proof.
  destruct f as [file fd]. unfold scan_file.
  destruct (bool_decide _); [|apply writer_ret].
  apply writer_try_except.
  - unfold _parse_dependency_file.
    destruct (DEPENDENCY_FILES !! file) as [[eco pname]|];
      [|apply writer_raise].
    destruct (getattr_self pname) as [parse|]; [|apply writer_raise].
    apply writer_try_except; [|intros _]; apply writer_read_parse_append.
  - intros e. unfold report.
    destruct (is_OSError e); [apply writer_print_err|].
    destruct (is_ValueError e); apply writer_print_err.
Qed.

Lemma writer_scan_run getattr_self root_path t :
  writer_like (scan_run getattr_self root_path t).
Proof.
  destruct (writer_for_each (at_file getattr_self root_path root_path)
              (visited t)) as (r & d & e & o & H).
  { intros x. apply writer_scan_file. }
  exists r, d, e, o. intros st. unfold scan_run.
  by rewrite os_walk_visited.
Qed.

(** A run of [scan] from any state is the run from the empty state,
    added to what the state held. *)
Lemma scan_run_frame getattr_self root_path t st :
  scan_run getattr_self root_path t st
  = (Ok tt,
     let st0 := snd (scan_run getattr_self root_path t init_state) in
     extend st (dependencies st0) (stderr st0) (opened st0)).
Proof.
  destruct (writer_scan_run getattr_self root_path t) as (r & d & e & o & H).
  assert (fst (scan_run getattr_self root_path t st) = Ok tt) as Ht.
  { unfold scan_run. rewrite os_walk_visited.
    apply for_each_total, at_file_total. }
  rewrite H in Ht. cbn [fst] in Ht. subst r.
  rewrite !H. cbv zeta. cbn [snd]. unfold extend. done.
Qed.

(** X1. [scan] never raises: whatever exception the handling of a file
    ends with, a missing parser method included, one of the three
    handlers of the loop takes it, and the walk goes on to the end. *)
Theorem scan_never_raises getattr_self root_path t st :
  fst (scan_run getattr_self root_path t st) = Ok tt.
Proof.
  unfold scan_run. rewrite os_walk_visited.
  apply for_each_total. intros x st'. apply scan_file_total.
Qed.

(** X2. [scan] appends to [self.dependencies] and never resets it: run
    on a scanner that already holds records, it returns those records
    followed by the records of a fresh scan.  So a second call of
    [scan] on the same scanner, over the same tree, returns every
    record twice. *)
Theorem scan_accumulates getattr_self root_path t st :
  scan getattr_self root_path t st
  = dependencies st ++ scan getattr_self root_path t init_state
  /\ scan getattr_self root_path t
       (snd (scan_run getattr_self root_path t init_state))
     = scan getattr_self root_path t init_state
       ++ scan getattr_self root_path t init_state.
Proof.
  unfold scan. split; by rewrite scan_run_frame.
Qed.

(** *** Files that do not count *)

Lemma for_each_filter {A} (P : A -> Prop) `{!forall x, Decision (P x)}
    (body : A -> M unit) l st :
  (forall x st, ~ P x -> body x st = (Ok tt, st)) ->
  for_each body (filter P l) st = for_each body l st.
Proof.
  intros Hb. revert st. induction l as [|x l IH]; intros st; [done|].
  rewrite filter_cons. destruct (decide (P x)) as [Hx|Hx]; cbn [for_each].
  - unfold bind. destruct (body x st) as [[[]|e] st1]; [apply IH | done].
  - unfold bind. rewrite (Hb x st Hx). apply IH.
Qed.

Lemma at_file_not_manifest getattr_self root_path top x st :
  ~ is_manifest (fst (snd x)) = true ->
  at_file getattr_self root_path top x st = (Ok tt, st).
Proof.
  destruct x as [ds [f fd]]. unfold at_file, scan_file, is_manifest.
  cbn [fst snd]. intros H. by destruct (bool_decide _).
Qed.

Lemma filter_map_iff {A B} (h : A -> B) (P : B -> Prop) (Q : A -> Prop)
    `{!forall y, Decision (P y)} `{!forall x, Decision (Q x)} (l : list A) :
  (forall x, P (h x) <-> Q x) ->
  filter P (map h l) = map h (filter Q l).
Proof.
  intros HPQ. induction l as [|x l IH]; [done|].
  cbn [map]. rewrite !filter_cons.
  destruct (decide (P (h x))) as [Hp|Hp], (decide (Q x)) as [Hq|Hq];
    try (exfalso; by apply HPQ in Hp); try (exfalso; by apply HPQ in Hq);
    cbn [map]; by rewrite IH.
Qed.

(** The walk over [relevant t] reaches the manifests the walk over [t]
    reaches, in the same order. *)
Lemma visited_relevant t :
  visited (relevant t)
  = filter (fun x => is_manifest (fst (snd x)) = true) (visited t).
Proof.
  induction t as [dirs files IH] using tree_ind'.
  cbn [relevant visited]. rewrite filter_app. f_equal.
  - symmetry.
    by apply filter_map_iff.
  - induction dirs as [|[d sub] dirs IHd]; [done|].
    apply Forall_cons in IH as [IHsub IH]. cbn [flat_map fst snd].
    rewrite filter_app, <- (IHd IH), flat_map_app. f_equal.
    destruct (bool_decide (d ∈ PRUNE_DIRS)) eqn:Hd; [done|].
    cbn [flat_map fst snd]. rewrite Hd, List.app_nil_r.
    cbn [snd] in IHsub. rewrite IHsub. symmetry.
    by apply filter_map_iff.
Qed.

Lemma scan_run_relevant getattr_self root_path t st :
  scan_run getattr_self root_path (relevant t) st
  = scan_run getattr_self root_path t st.
Proof.
  unfold scan_run. rewrite !os_walk_visited, visited_relevant.
  apply for_each_filter. intros x st'. apply at_file_not_manifest.
Qed.

(** X3. What [scan] returns, prints and opens does not depend on
    anything below a directory named in [PRUNE_DIRS], nor on the files
    whose names are not keys of [DEPENDENCY_FILES]: the run over a tree
    is the run over the tree with all of these removed. *)
Theorem scan_ignores_pruned_and_other_files getattr_self root_path t st :
  scan_run getattr_self root_path t st
  = scan_run getattr_self root_path (relevant t) st.
Proof. symmetry. apply scan_run_relevant. Qed.

(** *** The files that are opened *)

(** The walk reaches the files that lie below no pruned directory. *)
Lemma visited_located ds : forall t x,
  (ds, x) ∈ visited t
  <-> located ds t x /\ Forall (fun d => d ∉ PRUNE_DIRS) ds.
Proof.
  induction ds as [|d ds IH]; intros [dirs files] x; cbn [visited located].
  - rewrite elem_of_app. split.
    + intros [H|H].
      * apply list_elem_of_fmap in H as (f & [= ->] & H). by split.
      * apply list_elem_of_In, in_flat_map in H as ([d0 sub] & _ & H).
        cbn [fst snd] in H. destruct (bool_decide _); [done|].
        apply in_map_iff in H as (y & [=] & _).
    + intros [H _]. left. apply list_elem_of_fmap. by exists x.
  - rewrite elem_of_app. split.
    + intros [H|H].
      * apply list_elem_of_fmap in H as (f & [=] & _).
      * apply list_elem_of_In, in_flat_map in H as ([d0 sub] & Hin & H).
        cbn [fst snd] in H.
        destruct (decide (d0 ∈ PRUNE_DIRS)) as [Hp|Hp].
        { by rewrite (bool_decide_eq_true_2 _ Hp) in H. }
        rewrite (bool_decide_eq_false_2 _ Hp) in H.
        apply in_map_iff in H as ([ds' x'] & [= -> -> ->] & H).
        apply list_elem_of_In, IH in H as [Hl Hf].
        split; [|by constructor].
        exists sub. split; [by apply list_elem_of_In | done].
    + intros [(sub & Hin & Hl) Hf]. apply Forall_cons in Hf as [Hd Hf].
      right. apply list_elem_of_In, in_flat_map. exists (d, sub).
      split; [by apply list_elem_of_In|]. cbn [fst snd].
      rewrite (bool_decide_eq_false_2 _ Hd). apply in_map_iff.
      exists (ds, x). split; [done|]. apply list_elem_of_In, IH. by split.
Qed.

(** Every parser name of the table is a method of the class. *)
Lemma table_methods f eco pname :
  DEPENDENCY_FILES !! f = Some (eco, pname) ->
  is_Some (DependencyScanner pname) /\ eco ∈ ecosystems.
Proof.
  unfold DEPENDENCY_FILES. intros H%elem_of_list_to_map_2.
  assert (forall name,
            name ∈ ["parse_package_json"; "parse_package_lock";
                    "parse_requirements"; "parse_pipfile";
                    "parse_pipfile_lock"; "parse_go_mod"; "parse_go_sum";
                    "parse_gemfile"; "parse_gemfile_lock"; "parse_cargo";
                    "parse_cargo_lock"; "parse_pom"; "parse_gradle";
                    "parse_composer"] ->
            is_Some (DependencyScanner name)) as Hok.
  { intros name Hn. unfold DependencyScanner. apply elem_of_dom.
    unfold methods. rewrite dom_list_to_map_L, elem_of_list_to_set.
    exact Hn. }
  repeat (apply elem_of_cons in H as [[= -> -> ->]|H];
          [split; [apply Hok; set_solver | set_solver]|]).
  by apply elem_of_nil in H.
Qed.

Lemma scan_file_opened_mono getattr_self root_path top f st p :
  p ∈ opened st ->
  p ∈ opened (snd (scan_file getattr_self root_path top f st)).
Proof.
  destruct f as [file fd]. intros Hp.
  destruct (scan_file_effect getattr_self root_path top file fd st)
    as (new & errs & n & -> & _).
  cbn [opened]. apply elem_of_app. by left.
Qed.

(** With the methods of the class, a manifest handed to the loop body
    is opened. *)
Lemma scan_file_opens root_path top f fd st :
  is_manifest f = true ->
  path_div top f
  ∈ opened (snd (scan_file DependencyScanner root_path top (f, fd) st)).
Proof.
  unfold is_manifest, scan_file. intros H. rewrite H.
  apply bool_decide_eq_true_1 in H as [[eco pname] Hf].
  destruct (table_methods _ _ _ Hf) as [[parse Hg] _].
  unfold _parse_dependency_file. rewrite Hf, Hg. unfold try_except.
  assert (Hrpa : forall enc st0,
            path_div top f
            ∈ opened (snd (read_parse_append root_path parse eco
                             (path_div top f) fd enc st0))).
  { intros enc st0.
    destruct (read_parse_append root_path parse eco (path_div top f) fd enc st0)
      as [[[]|e] st1] eqn:E.
    - apply read_parse_append_ok in E as (new & -> & _).
      cbn [snd opened]. apply elem_of_app. right. left.
    - apply read_parse_append_raise in E as ->.
      cbn [snd opened]. apply elem_of_app. right. left. }
  pose proof (Hrpa utf_8 st) as H1.
  destruct (read_parse_append root_path parse eco (path_div top f) fd utf_8 st)
    as [[[]|e] st1]; cbn [snd] in H1; [done|].
  destruct (is_UnicodeDecodeError e).
  - pose proof (Hrpa latin_1 st1) as H2.
    destruct (read_parse_append root_path parse eco (path_div top f) fd
                latin_1 st1) as [[[]|e2] st2]; [done|]. cbn [snd] in H2.
    destruct (report_effect (path_div top f) e2 st2) as [line ->]. done.
  - destruct (report_effect (path_div top f) e st1) as [line ->]. done.
Qed.

Lemma for_each_opens getattr_self root_path top l x st p :
  x ∈ l ->
  (forall st, p ∈ opened (snd (at_file getattr_self root_path top x st))) ->
  p ∈ opened (snd (for_each (at_file getattr_self root_path top) l st)).
Proof.
  intros Hx Hp. revert st. induction l as [|y l IH]; intros st.
  { by apply elem_of_nil in Hx. }
  cbn [for_each]. unfold bind.
  pose proof (at_file_total getattr_self root_path top y st) as Ht.
  apply elem_of_cons in Hx as [<-|Hx].
  - specialize (Hp st).
    destruct (at_file getattr_self root_path top x st) as [[[]|e] st1];
      [|done]. cbn [snd] in Hp.
    apply (for_each_inv (fun st' => p ∈ opened st')); [|done].
    intros z st' _. apply scan_file_opened_mono.
  - destruct (at_file getattr_self root_path top y st) as [[[]|e] st1];
      [|done]. by apply IH.
Qed.

(** X4. The files [scan] opens are exactly the files of the tree that
    are named by a key of [DEPENDENCY_FILES] and lie below no directory
    named in [PRUNE_DIRS]: each of them is opened, lock files included,
    and nothing else is. *)
Theorem scan_opens_exactly_the_manifests root_path t p :
  p ∈ opened (snd (scan_run DependencyScanner root_path t init_state))
  <-> exists ds f fd,
        located ds t (f, fd)
        /\ Forall (fun d => d ∉ PRUNE_DIRS) ds
        /\ is_manifest f = true
        /\ p = path_app root_path (ds ++ [f]).
Proof.
  split.
  - rewrite <- scan_run_relevant. intros H.
    apply scan_opened in H as [H|(ds & f & fd & H & ->)];
      [by apply elem_of_nil in H|].
    rewrite visited_relevant in H.
    apply list_elem_of_filter in H as [Hm H]. cbn [fst snd] in Hm.
    apply visited_located in H as [Hl Hp]. by exists ds, f, fd.
  - intros (ds & f & fd & Hl & Hp & Hm & ->).
    unfold scan_run. rewrite os_walk_visited.
    apply (for_each_opens _ _ _ _ (ds, (f, fd))).
    + apply visited_located. by split.
    + intros st. unfold at_file. cbn [fst snd].
      rewrite <- path_div_app. by apply scan_file_opens.
Qed.

(** *** One manifest *)

Lemma read_parse_append_value root_path parse eco ds f fd enc st content deps :
  match enc with utf_8 => read_utf8 fd | latin_1 => read_latin1 fd end
  = Ok content ->
  parse content (path_app root_path (ds ++ [f])) = Ok deps ->
  read_parse_append root_path parse eco (path_app root_path (ds ++ [f])) fd
    enc st
  = (Ok tt, extend st (records eco (mkPath false (ds ++ [f])) deps) []
              [path_app root_path (ds ++ [f])]).
Proof.
  intros Hr Hp. unfold read_parse_append, bind, open_read, lift.
  rewrite Hr, Hp.
  rewrite (append_loop_some root_path eco _ (mkPath false (ds ++ [f])))
    by apply relative_to_below.
  unfold extend. cbn. by rewrite List.app_nil_r.
Qed.

Lemma read_parse_append_read_error root_path parse eco file_path fd enc st e :
  match enc with utf_8 => read_utf8 fd | latin_1 => read_latin1 fd end
  = Raise e ->
  read_parse_append root_path parse eco file_path fd enc st
  = (Raise e, extend st [] [] [file_path]).
Proof.
  intros Hr. unfold read_parse_append, bind, open_read, lift. rewrite Hr.
  unfold extend. cbn. by rewrite !List.app_nil_r.
Qed.

Lemma scan_file_utf8 getattr_self root_path ds f fd st eco pname parse
    content deps :
  DEPENDENCY_FILES !! f = Some (eco, pname) ->
  getattr_self pname = Some parse ->
  read_utf8 fd = Ok content ->
  parse content (path_app root_path (ds ++ [f])) = Ok deps ->
  scan_file getattr_self root_path (path_app root_path ds) (f, fd) st
  = (Ok tt, extend st (records eco (mkPath false (ds ++ [f])) deps) []
              [path_app root_path (ds ++ [f])]).
Proof.
  intros Hf Hg Hr Hp. unfold scan_file.
  rewrite bool_decide_eq_true_2 by (rewrite Hf; eauto).
  unfold _parse_dependency_file. rewrite Hf, Hg. unfold try_except.
  rewrite path_div_app.
  by rewrite (read_parse_append_value _ _ _ _ _ _ utf_8 _ content deps).
Qed.

(** X5. A manifest that reads as UTF-8 adds to [self.dependencies] one
    record per pair of its parser, in the parser's order, each with the
    ecosystem tag of [DEPENDENCY_FILES] and the path of the file written
    from the scan root; the file is opened once and nothing is
    printed. *)
Theorem readable_manifest_is_recorded getattr_self root_path ds f fd st
    eco pname parse content deps :
  DEPENDENCY_FILES !! f = Some (eco, pname) ->
  getattr_self pname = Some parse ->
  read_utf8 fd = Ok content ->
  parse content (path_app root_path (ds ++ [f])) = Ok deps ->
  scan_file getattr_self root_path (path_app root_path ds) (f, fd) st
  = (Ok tt,
     extend st
       (map (fun d => mkDep eco (fst d) (snd d) (Py.join "/" (ds ++ [f]))) deps)
       [] [path_app root_path (ds ++ [f])]).
Proof.
  intros Hf Hg Hr Hp.
  rewrite (scan_file_utf8 _ _ _ _ _ _ eco pname parse content deps) by done.
  unfold records, path_str. cbn [is_absolute parts]. by destruct ds.
Qed.

Lemma readable_manifest_is_recorded_witness :
  scan_file DependencyScanner SampleTrees.root
    (path_app SampleTrees.root ["src"])
    ("requirements.txt", SampleTrees.plain "flask==1.1.2") init_state
  = (Ok tt,
     extend init_state [mkDep "pip" "flask" "==1.1.2" "src/requirements.txt"]
       [] [path_app SampleTrees.root ["src"; "requirements.txt"]]).
Proof.
  apply (readable_manifest_is_recorded DependencyScanner SampleTrees.root
           ["src"] "requirements.txt" (SampleTrees.plain "flask==1.1.2")
           init_state "pip" "parse_requirements" (total parse_requirements)
           "flask==1.1.2" [("flask", "==1.1.2")]).
  - vm_compute. reflexivity.
  - reflexivity.
  - reflexivity.
  - vm_compute. reflexivity.
Defined.

(** X6. The Latin-1 retry.  When reading a manifest as UTF-8 raises
    [UnicodeDecodeError], the file is opened a second time and read as
    Latin-1; the records of that second content are appended, and
    nothing is printed. *)
Theorem undecodable_manifest_is_read_as_latin1 getattr_self root_path ds f fd
    st eco pname parse msg content deps :
  DEPENDENCY_FILES !! f = Some (eco, pname) ->
  getattr_self pname = Some parse ->
  read_utf8 fd = Raise (UnicodeDecodeError msg) ->
  read_latin1 fd = Ok content ->
  parse content (path_app root_path (ds ++ [f])) = Ok deps ->
  scan_file getattr_self root_path (path_app root_path ds) (f, fd) st
  = (Ok tt,
     extend st
       (map (fun d => mkDep eco (fst d) (snd d) (Py.join "/" (ds ++ [f]))) deps)
       []
       [path_app root_path (ds ++ [f]); path_app root_path (ds ++ [f])]).
Proof.
  intros Hf Hg Hr1 Hr2 Hp. unfold scan_file.
  rewrite bool_decide_eq_true_2 by (rewrite Hf; eauto).
  unfold _parse_dependency_file. rewrite Hf, Hg. unfold try_except.
  rewrite path_div_app.
  rewrite (read_parse_append_read_error _ _ _ _ _ utf_8 _ _ Hr1).
  cbn [is_UnicodeDecodeError].
  rewrite (read_parse_append_value _ _ _ _ _ _ latin_1 _ content deps) by done.
  rewrite extend_extend. cbn [app].
  unfold records, path_str. cbn [is_absolute parts]. by destruct ds.
Qed.

Lemma undecodable_manifest_is_read_as_latin1_witness :
  scan_file DependencyScanner SampleTrees.root
    (path_app SampleTrees.root [])
    ("requirements.txt", SampleTrees.latin1_requirements) init_state
  = (Ok tt,
     extend init_state [mkDep "pip" "flask" "==1.1.2" "requirements.txt"] []
       [path_app SampleTrees.root ["requirements.txt"];
        path_app SampleTrees.root ["requirements.txt"]]).
Proof.
  apply (undecodable_manifest_is_read_as_latin1 DependencyScanner
           SampleTrees.root [] "requirements.txt"
           SampleTrees.latin1_requirements init_state "pip"
           "parse_requirements" (total parse_requirements)
           "'utf-8' codec can't decode byte 0xe9"
           (Samples.text ["# caf" +:+ String (ascii_of_nat 233) EmptyString;
                          "flask==1.1.2"])
           [("flask", "==1.1.2")]).
  - vm_compute. reflexivity.
  - reflexivity.
  - reflexivity.
  - reflexivity.
  - vm_compute. reflexivity.
Defined.

(** X7. A manifest that cannot be opened or read ([OSError]) is opened
    once, not retried in Latin-1, adds no record, and gives one line on
    standard error, [Warning: Cannot read], with the path and the text
    of the exception. *)
Theorem unreadable_manifest_is_reported getattr_self root_path top f fd st
    eco pname parse msg :
  DEPENDENCY_FILES !! f = Some (eco, pname) ->
  getattr_self pname = Some parse ->
  read_utf8 fd = Raise (OSError msg) ->
  scan_file getattr_self root_path top (f, fd) st
  = (Ok tt,
     extend st []
       ["Warning: Cannot read " +:+ path_str (path_div top f) +:+ ": " +:+ msg]
       [path_div top f]).
Proof.
  intros Hf Hg Hr. unfold scan_file.
  rewrite bool_decide_eq_true_2 by (rewrite Hf; eauto).
  unfold _parse_dependency_file. rewrite Hf, Hg. unfold try_except.
  rewrite (read_parse_append_read_error _ _ _ _ _ utf_8 _ _ Hr).
  cbn [is_UnicodeDecodeError]. unfold report. cbn [is_OSError exn_str].
  unfold print_err, extend. cbn. by rewrite !List.app_nil_r.
Qed.

Lemma unreadable_manifest_is_reported_witness :
  scan_file DependencyScanner SampleTrees.root SampleTrees.root
    ("Pipfile", SampleTrees.unreadable) init_state
  = (Ok tt,
     extend init_state []
       ["Warning: Cannot read /srv/repo/Pipfile: [Errno 13] Permission denied"]
       [path_div SampleTrees.root "Pipfile"]).
Proof.
  apply (unreadable_manifest_is_reported DependencyScanner SampleTrees.root
           SampleTrees.root "Pipfile" SampleTrees.unreadable init_state
           "pip" "parse_pipfile" (total parse_pipfile)
           "[Errno 13] Permission denied").
  - vm_compute. reflexivity.
  - reflexivity.
  - reflexivity.
Defined.

(** *** Lock files *)

Lemma lock_file_table f :
  f ∈ lock_files ->
  exists eco pname parse,
    DEPENDENCY_FILES !! f = Some (eco, pname)
    /\ DependencyScanner pname = Some parse
    /\ forall content file_path, parse content file_path = Ok [].
Proof.
  unfold lock_files. intros H.
  repeat (apply elem_of_cons in H as [->|H];
          [eexists _, _, _; split; [vm_compute; reflexivity|];
           split; [vm_compute; reflexivity | done]|]).
  by apply elem_of_nil in H.
Qed.

(** X8. The five lock files ([package-lock.json], [Pipfile.lock],
    [go.sum], [Gemfile.lock], [Cargo.lock]) are opened and read like
    any manifest, but never add a record: whatever they hold and
    however the reading ends, [self.dependencies] is left as it was. *)
Theorem lock_files_give_no_records root_path top f fd st :
  f ∈ lock_files ->
  dependencies (snd (scan_file DependencyScanner root_path top (f, fd) st))
  = dependencies st
  /\ path_div top f
     ∈ opened (snd (scan_file DependencyScanner root_path top (f, fd) st)).
Proof.
  intros Hl.
  destruct (lock_file_table f Hl) as (eco & pname & parse & Hf & Hg & Hp).
  split; [|apply scan_file_opens; unfold is_manifest;
           apply bool_decide_eq_true_2; rewrite Hf; eauto].
  destruct (scan_file_effect DependencyScanner root_path top f fd st)
    as (new & errs & n & -> & Hnew).
  cbn [dependencies]. destruct new as [|r new]; [by rewrite List.app_nil_r|].
  apply Forall_cons in Hnew as [(eco' & pname' & parse' & Hf' & Hg' & Ha) _].
  rewrite Hf in Hf'. injection Hf' as <- <-.
  rewrite Hg in Hg'. injection Hg' as <-.
  destruct Ha as (rel & content & deps & d & _ & Hd & Hin & _).
  rewrite Hp in Hd. injection Hd as <-. by apply elem_of_nil in Hin.
Qed.

Lemma lock_files_give_no_records_witness :
  dependencies
    (snd (scan_file DependencyScanner SampleTrees.root SampleTrees.root
            ("Cargo.lock", SampleTrees.plain Samples.cargo_toml) init_state))
  = dependencies init_state
  /\ path_div SampleTrees.root "Cargo.lock"
     ∈ opened
         (snd (scan_file DependencyScanner SampleTrees.root SampleTrees.root
                 ("Cargo.lock", SampleTrees.plain Samples.cargo_toml)
                 init_state)).
Proof.
  apply (lock_files_give_no_records SampleTrees.root SampleTrees.root
           "Cargo.lock" (SampleTrees.plain Samples.cargo_toml) init_state).
  vm_compute. right. right. right. right. left.
Defined.

(** *** A scan without warnings *)

(** The methods of the class return a list for every content. *)
Lemma methods_total pname parse content file_path :
  DependencyScanner pname = Some parse ->
  exists deps, parse content file_path = Ok deps.
Proof.
  unfold DependencyScanner, methods. intros H%elem_of_list_to_map_2.
  repeat (apply elem_of_cons in H as [[= -> ->]|H];
          [unfold total; eauto|]).
  by apply elem_of_nil in H.
Qed.

Lemma utf8_readable_visited t : forall ds f fd,
  utf8_readable t = true -> (ds, (f, fd)) ∈ visited t ->
  exists content, read_utf8 fd = Ok content.
Proof.
  induction t as [dirs files IH] using tree_ind'. intros ds f fd.
  cbn [utf8_readable visited]. intros [Hdirs Hfiles]%andb_true_iff.
  rewrite forallb_forall in Hdirs, Hfiles.
  intros [H|H]%elem_of_app.
  - apply list_elem_of_fmap in H as (f' & [= -> <-] & H).
    apply list_elem_of_In, Hfiles in H. cbn [snd] in H.
    destruct (read_utf8 fd); [eauto | done].
  - apply list_elem_of_In, in_flat_map in H as ([d sub] & Hin & H).
    apply list_elem_of_In in H. cbn [fst snd] in H.
    destruct (bool_decide (d ∈ PRUNE_DIRS)); [by apply elem_of_nil in H|].
    apply list_elem_of_fmap in H as ([ds' [f' fd']] & [= -> <- <-] & H).
    pose proof (Hdirs _ Hin) as Hsub. cbn [snd] in Hsub.
    rewrite Forall_forall in IH. apply list_elem_of_In in Hin.
    by apply (IH (d, sub) Hin ds' f fd).
Qed.

(** X9. When every manifest outside the pruned directories can be read
    as UTF-8, [scan] prints nothing: the methods of the class raise on
    no content, every parser name of the table is a method, and every
    visited file lies below the scan root.  Each of these manifests is
    then opened exactly once, in walk order. *)
Theorem scan_of_readable_tree_is_quiet root_path t st :
  utf8_readable (relevant t) = true ->
  stderr (snd (scan_run DependencyScanner root_path t st)) = stderr st
  /\ opened (snd (scan_run DependencyScanner root_path t st))
     = opened st
       ++ map (fun x => path_app root_path (fst x ++ [fst (snd x)]))
            (visited (relevant t)).
Proof.
  intros Hr. rewrite <- scan_run_relevant. unfold scan_run.
  rewrite os_walk_visited.
  assert (Hall : forall x, x ∈ visited (relevant t) ->
            is_manifest (fst (snd x)) = true
            /\ exists content, read_utf8 (snd (snd x)) = Ok content).
  { intros [ds [f fd]] Hx. split.
    - rewrite visited_relevant in Hx.
      by apply list_elem_of_filter in Hx as [Hm _].
    - by apply (utf8_readable_visited _ ds f fd Hr). }
  revert st Hall. induction (visited (relevant t)) as [|[ds [f fd]] l IH];
    intros st Hall.
  { cbn. by rewrite List.app_nil_r. }
  destruct (Hall (ds, (f, fd))) as [Hm [content Hc]]; [left|].
  cbn [fst snd] in Hm, Hc. unfold is_manifest in Hm.
  apply bool_decide_eq_true_1 in Hm as [[eco pname] Hf].
  destruct (table_methods _ _ _ Hf) as [[parse Hg] _].
  destruct (methods_total pname parse content
              (path_app root_path (ds ++ [f])) Hg) as [deps Hp].
  cbn [for_each map fst snd]. unfold bind, at_file at 1 3. cbn [fst snd].
  rewrite (scan_file_utf8 _ _ _ _ _ _ eco pname parse content deps) by done.
  destruct (IH (extend st (records eco (mkPath false (ds ++ [f])) deps) []
                  [path_app root_path (ds ++ [f])])) as [IH1 IH2].
  { intros x Hx. apply Hall. by right. }
  rewrite IH1, IH2. cbn [stderr opened extend].
  split; [by rewrite List.app_nil_r | by rewrite <- List.app_assoc].
Qed.

Lemma scan_of_readable_tree_is_quiet_witness :
  stderr (snd (scan_run DependencyScanner SampleTrees.root
                 TestInputs.pruning_tree init_state))
  = stderr init_state
  /\ opened (snd (scan_run DependencyScanner SampleTrees.root
                    TestInputs.pruning_tree init_state))
     = opened init_state
       ++ map (fun x => path_app SampleTrees.root (fst x ++ [fst (snd x)]))
            (visited (relevant TestInputs.pruning_tree)).
Proof.
  apply (scan_of_readable_tree_is_quiet SampleTrees.root
           TestInputs.pruning_tree init_state).
  vm_compute. reflexivity.
Defined.

(** *** The order of the records *)

Lemma writer_frame (m : M unit) st :
  writer_like m -> (forall st, fst (m st) = Ok tt) ->
  m st
  = (Ok tt, extend st (dependencies (snd (m init_state)))
              (stderr (snd (m init_state))) (opened (snd (m init_state)))).
Proof.
  intros (r & d & e & o & H) Ht. specialize (Ht st).
  rewrite !H in *. cbn [fst snd] in *. by subst r.
Qed.

Lemma at_files_frame getattr_self root_path top l st :
  dependencies (snd (for_each (at_file getattr_self root_path top) l st))
  = dependencies st
    ++ dependencies
         (snd (for_each (at_file getattr_self root_path top) l init_state)).
Proof.
  rewrite (writer_frame (for_each (at_file getattr_self root_path top) l) st).
  - done.
  - apply writer_for_each. intros x. apply writer_scan_file.
  - intros st'. apply for_each_total, at_file_total.
Qed.

Lemma at_files_app getattr_self root_path top l1 l2 :
  dependencies
    (snd (for_each (at_file getattr_self root_path top) (l1 ++ l2) init_state))
  = dependencies
      (snd (for_each (at_file getattr_self root_path top) l1 init_state))
    ++ dependencies
         (snd (for_each (at_file getattr_self root_path top) l2 init_state)).
Proof.
  rewrite for_each_app by apply at_file_total. apply at_files_frame.
Qed.

(** X10. The order of the result.  The records of a directory are the
    records of its own manifests, in listing order, followed by the
    records of each of its sub-directories in listing order, those
    named in [PRUNE_DIRS] left out. *)
Theorem records_follow_the_walk getattr_self root_path dirs files top :
  walk_records getattr_self root_path (Node dirs files) top
  = files_records getattr_self root_path top files
    ++ flat_map (fun e =>
         if bool_decide (fst e ∈ PRUNE_DIRS) then []
         else walk_records getattr_self root_path (snd e)
                (path_div top (fst e))) dirs.
Proof.
  unfold walk_records, files_records. rewrite os_walk_visited.
  cbn [visited]. rewrite at_files_app. f_equal.
  - rewrite for_each_map. f_equal. f_equal. apply for_each_ext.
    intros f st _. unfold at_file. cbn [fst snd]. by rewrite path_app_nil.
  - induction dirs as [|[d sub] dirs IH]; [done|].
    cbn [flat_map fst snd]. rewrite at_files_app, IH. f_equal.
    destruct (bool_decide (d ∈ PRUNE_DIRS)); [done|].
    rewrite os_walk_visited, for_each_map. f_equal. f_equal.
    apply for_each_ext. intros x st _. unfold at_file. cbn [fst snd].
    by rewrite path_app_div.
Qed.

(** *** The ecosystem column *)

(** X11. The ecosystem of a record is the tag [DEPENDENCY_FILES] gives
    for the name of its manifest, one of the eight tags of the table;
    the parser methods have no say in it. *)
Theorem record_ecosystem_follows_file_name getattr_self root_path t r :
  r ∈ scan getattr_self root_path t init_state ->
  exists ds f fd pname,
    located ds t (f, fd)
    /\ file r = Py.join "/" (ds ++ [f])
    /\ DEPENDENCY_FILES !! f = Some (ecosystem r, pname)
    /\ ecosystem r ∈ ecosystems.
Proof.
  unfold scan, scan_run. rewrite os_walk_visited. revert r.
  apply (for_each_inv (fun st' => forall r, r ∈ dependencies st' -> _)).
  2:{ intros r H. by apply elem_of_nil in H. }
  intros [ds [f fd]] st' Hx IH r. unfold at_file. cbn [fst snd].
  destruct (scan_file_effect getattr_self root_path
              (path_app root_path ds) f fd st') as (new & errs & n & -> & Hnew).
  cbn [dependencies]. intros [Hr|Hr]%elem_of_app; [by apply IH|].
  rewrite Forall_forall in Hnew.
  destruct (Hnew r Hr) as (eco & pname & parse & Hf & _ & Ha).
  destruct Ha as (rel & content & deps & d & Hrel & _ & _ & ->).
  rewrite path_div_app, relative_to_below in Hrel. injection Hrel as <-.
  apply visited_located in Hx as [Hl _].
  exists ds, f, fd, pname. cbn [ecosystem file].
  split; [done|]. split; [|split; [done|]].
  - unfold path_str. cbn [is_absolute parts]. by destruct ds.
  - by destruct (table_methods _ _ _ Hf).
Qed.

Lemma record_ecosystem_follows_file_name_witness :
  exists ds f fd pname,
    located ds SampleTrees.project (f, fd)
    /\ file (mkDep "pip" "flask" "==1.1.2" "src/api/requirements.txt")
       = Py.join "/" (ds ++ [f])
    /\ DEPENDENCY_FILES !! f
       = Some (ecosystem
                 (mkDep "pip" "flask" "==1.1.2" "src/api/requirements.txt"),
               pname)
    /\ ecosystem (mkDep "pip" "flask" "==1.1.2" "src/api/requirements.txt")
       ∈ ecosystems.
Proof.
  apply (record_ecosystem_follows_file_name DependencyScanner SampleTrees.root
           SampleTrees.project).
  vm_compute. right. right. left.
Defined.

End ScanLaws.

(** ** What the parsers return *)

Module ParserLaws.
Import Re Parsers PyFacts ReFacts ParserFacts.
#[local] Arguments String.append : simpl nomatch.

(** *** The text of a group *)

Lemma steps_plus_span p s n c s' n' c' :
  steps (Plus p) s n c s' n' c' ->
  exists a w,
    s = String a (w +:+ s') /\ n' = n + S (String.length w) /\ c' = c
    /\ p a = true /\ all_chars p w = true.
Proof.
  unfold Plus. intros H. inversion H; subst; clear H.
  match goal with
  | H : steps (Set_ _) _ _ _ _ _ _ |- _ => inversion H; subst; clear H
  end.
  match goal with
  | H : steps (Star _) _ _ _ _ _ _ |- _ =>
      apply steps_star_span in H as (w & -> & -> & -> & Hw)
  end.
  eexists _, w. repeat split; [lia | done | done].
Qed.

(** A group around [cls+] holds a non-empty text of the class. *)
Lemma steps_grp_plus i p s n c s' n' c' :
  steps (Grp i (Plus p)) s n c s' n' c' ->
  exists w,
    w <> EmptyString /\ all_chars p w = true /\ s = w +:+ s'
    /\ n' = n + String.length w /\ c' = (i, w) :: c.
Proof.
  intros H. inversion H; subst; clear H.
  match goal with
  | H : steps (Plus _) _ _ _ _ _ _ |- _ =>
      apply steps_plus_span in H as (a & w & -> & -> & -> & Ha & Hw)
  end.
  exists (String a w). split; [done|]. split; [by cbn; rewrite Ha, Hw|].
  split; [done|]. split; [cbn; lia|].
  replace (n + S (String.length w) - n) with (S (String.length w)) by lia.
  cbn. by rewrite substring_app_l.
Qed.

Ltac take_apart :=
  repeat lazymatch goal with
  | H : steps (Grp _ (Plus _)) _ _ _ _ _ _ |- _ =>
      apply steps_grp_plus in H as (? & ? & ? & ? & ? & ?); subst
  | H : steps (Plus _) _ _ _ _ _ _ |- _ =>
      apply steps_plus_span in H as (? & ? & ? & ? & ? & ? & ?); subst
  | H : steps (Star _) _ _ _ _ _ _ |- _ =>
      apply steps_star_span in H as (? & ? & ? & ? & ?); subst
  | H : steps (Seq _ _) _ _ _ _ _ _ |- _ => inversion H; subst; clear H
  | H : steps (Grp _ _) _ _ _ _ _ _ |- _ => inversion H; subst; clear H
  | H : steps (Lit _) _ _ _ _ _ _ |- _ => inversion H; subst; clear H
  | H : steps (Set_ _) _ _ _ _ _ _ |- _ => inversion H; subst; clear H
  | H : steps (Opt _) _ _ _ _ _ _ |- _ => inversion H; subst; clear H
  | H : steps Bol _ _ _ _ _ _ |- _ => inversion H; subst; clear H
  | H : steps Eol _ _ _ _ _ _ |- _ => inversion H; subst; clear H
  end.

(** What the groups of each pattern hold after a match. *)
Lemma package_json_groups line m :
  search PACKAGE_JSON_PATTERN line = Some m ->
  exists n v,
    m_caps m = [(2, v); (1, n)]
    /\ n <> EmptyString /\ all_chars not_dquote n = true
    /\ v <> EmptyString /\ all_chars not_dquote v = true.
Proof.
  intros H. apply search_from_sound in H as (s0 & n0 & s' & H). destruct m. cbn [m_caps m_end] in H.
  unfold PACKAGE_JSON_PATTERN in H. take_apart. cbn [m_caps]. eauto 10.
Qed.

Lemma cargo_groups line m :
  match_ CARGO_PATTERN line = Some m ->
  exists n v,
    m_caps m = [(2, v); (1, n)]
    /\ n <> EmptyString /\ all_chars name_char n = true
    /\ v <> EmptyString /\ all_chars not_dquote v = true.
Proof.
  intros H. apply match_at_sound in H as (s' & H & _). destruct m. cbn [m_caps m_end] in H.
  unfold CARGO_PATTERN in H. take_apart. cbn [m_caps]. eauto 10.
Qed.

Lemma go_mod_groups line m :
  match_ GO_MOD_PATTERN line = Some m ->
  exists n v,
    m_caps m = [(2, v); (1, n)]
    /\ n <> EmptyString /\ all_chars non_space n = true
    /\ v <> EmptyString /\ all_chars non_space v = true.
Proof.
  intros H. apply match_at_sound in H as (s' & H & _). destruct m. cbn [m_caps m_end] in H.
  unfold GO_MOD_PATTERN in H. take_apart; cbn [m_caps]; eauto 10.
Qed.

Lemma gemfile_groups content m :
  m ∈ finditer GEMFILE_PATTERN content ->
  exists n,
    n <> EmptyString /\ all_chars not_quote n = true
    /\ (m_caps m = [(1, n)]
        \/ exists v, m_caps m = [(2, v); (1, n)]
             /\ v <> EmptyString /\ all_chars not_quote v = true).
Proof.
  intros H. apply finditer_from_sound in H as (s0 & n0 & s' & H). destruct m. cbn [m_caps m_end] in H.
  unfold GEMFILE_PATTERN in H. take_apart; cbn [m_caps].
  - eexists. split; [|split; [|right; eexists; split; [reflexivity|]]];
      [done | done | by split].
  - eexists. split; [|split; [|by left]]; done.
Qed.

Lemma requirements_groups line m :
  match_ REQUIREMENTS_PATTERN line = Some m ->
  exists n,
    n <> EmptyString /\ all_chars name_char n = true
    /\ (m_caps m = [(1, n)]
        \/ exists c v, m_caps m = [(2, String c v); (1, n)]
             /\ op_char c = true).
Proof.
  intros H. apply match_at_sound in H as (s' & H & _). destruct m. cbn [m_caps m_end] in H.
  unfold REQUIREMENTS_PATTERN in H. take_apart; cbn [m_caps].
  - eexists. split; [done|]. split; [done|]. right.
    match goal with
    | |- context [substring 0 ?k (String ?a ?r)] =>
        let k' := fresh in
        destruct k as [|k'] eqn:?; [lia|]; cbn [substring]
    end.
    eauto.
  - eauto 10.
Qed.

Lemma versioned_snoc deps name version :
  versioned deps -> version <> EmptyString ->
  versioned (deps ++ [(name, version)]).
Proof.
  intros H Hn. apply Forall_app. split; [done|]. by repeat constructor.
Qed.

Lemma block_step_versioned opens st line :
  versioned (snd st) -> versioned (snd (block_step opens st line)).
Proof.
  destruct st as [in_deps deps]. unfold block_step. cbn [snd]. intros Hd.
  destruct (opens line); [done|]. destruct in_deps; [|done].
  destruct (Py.contains "}" line); [done|].
  destruct (search PACKAGE_JSON_PATTERN line) as [m|] eqn:E; [|done].
  cbn [snd]. apply versioned_snoc; [done|].
  destruct (package_json_groups _ _ E) as (n & v & Hc & _ & _ & Hv & _).
  unfold group_text, group. by rewrite Hc.
Qed.

(** Every value [findall] returns for one of the three patterns of
    [parse_pom] is a non-empty text without a [<]. *)
Lemma findall1_tag l1 l2 content x :
  x ∈ findall1 (Lit l1 ⋅ Grp 1 (Plus not_lt) ⋅ Lit l2)%re content ->
  x <> EmptyString /\ all_chars not_lt x = true.
Proof.
  unfold findall1. intros (m & Hm & Hx)%list_elem_of_omap.
  apply finditer_from_sound in Hm as (s0 & n0 & s' & H). destruct m.
  cbn [m_caps m_end] in H. take_apart. unfold group in Hx. cbn in Hx. by injection Hx as <-.
Qed.

(** X12. Seven parsers never return a pair with an empty version:
    those of package.json, composer.json, requirements.txt, go.mod,
    Gemfile, Cargo.toml and pom.xml.  Where the pattern has a version
    group it takes at least one character, and where the manifest names
    no version ([parse_requirements], [parse_gemfile]) the version is
    the text [*]. *)
Theorem versions_are_not_empty content file_path :
  versioned (parse_package_json content file_path)
  /\ versioned (parse_composer content file_path)
  /\ versioned (parse_requirements content file_path)
  /\ versioned (parse_go_mod content file_path)
  /\ versioned (parse_gemfile content file_path)
  /\ versioned (parse_cargo content file_path)
  /\ versioned (parse_pom content file_path).
Proof.
  repeat split.
  - unfold parse_package_json.
    apply (fold_left_inv (fun st => versioned (snd st))); [constructor|].
    intros st line _. apply block_step_versioned.
  - unfold parse_composer.
    apply (fold_left_inv (fun st => versioned (snd st))); [constructor|].
    intros st line _. apply block_step_versioned.
  - unfold parse_requirements. apply (fold_left_inv versioned); [constructor|].
    intros deps line _ Hd. unfold requirements_step.
    destruct (negb _ && negb _); [|done].
    destruct (match_ REQUIREMENTS_PATTERN (Py.strip line)) as [m|] eqn:E;
      [|done].
    apply versioned_snoc; [done|].
    destruct (requirements_groups _ _ E)
      as (n & _ & _ & [Hc|(c & v & Hc & _)]);
      unfold group; by rewrite Hc.
  - unfold parse_go_mod. apply (fold_left_inv versioned); [constructor|].
    intros deps line _ Hd. unfold go_mod_step.
    destruct (negb _ && negb _); [|done].
    destruct (match_ GO_MOD_PATTERN (Py.strip line)) as [m|] eqn:E; [|done].
    apply versioned_snoc; [done|].
    destruct (go_mod_groups _ _ E) as (n & v & Hc & _ & _ & Hv & _).
    unfold group_text, group. by rewrite Hc.
  - unfold parse_gemfile. apply (fold_left_inv versioned); [constructor|].
    intros deps m Hm Hd. unfold gemfile_step.
    apply versioned_snoc; [done|].
    destruct (gemfile_groups _ _ Hm)
      as (n & _ & _ & [Hc|(v & Hc & Hv & _)]);
      unfold group; rewrite Hc; cbn; [done|].
    by destruct v.
  - unfold parse_cargo.
    apply (fold_left_inv (fun st => versioned (snd st))); [constructor|].
    intros [in_deps deps] line _. unfold cargo_step. cbn [snd]. intros Hd.
    destruct (Py.contains "[dependencies]" line); [done|].
    destruct (if in_deps && _ then false else in_deps); [|done].
    destruct (match_ CARGO_PATTERN line) as [m|] eqn:E; [|done].
    cbn [snd]. apply versioned_snoc; [done|].
    destruct (cargo_groups _ _ E) as (n & v & Hc & _ & _ & Hv & _).
    unfold group_text, group. by rewrite Hc.
  - unfold parse_pom. rewrite pom_loop by lia.
    apply Forall_forall. intros d Hd.
    apply list_elem_of_fmap in Hd as (i & -> & Hi). cbn [snd].
    apply elem_of_seq in Hi as [_ Hi]. cbn in Hi.
    destruct (lookup_lt_is_Some_2 (findall1 POM_VERSION_PATTERN content) i)
      as [v Hv]; [lia|].
    rewrite Hv. cbn. apply list_elem_of_lookup_2 in Hv.
    by apply findall1_tag in Hv as [Hv _].
Qed.

(** *** requirements.txt *)



(** *** build.gradle *)




(** *** Line by line *)

Lemma split_not_nil sep s : Py.split sep s <> [].
Proof.
  destruct s as [|c s]; cbn [Py.split]; [done|].
  destruct (Py.eqc c sep); [done|]. by destruct (Py.split sep s).
Qed.

Lemma split_app sep a b :
  Py.split sep (a +:+ String sep b) = Py.split sep a ++ Py.split sep b.
Proof.
  induction a as [|c a IH]; cbn [String.append Py.split].
  - by rewrite eqc_refl.
  - destruct (Py.eqc c sep); [by rewrite IH|].
    rewrite IH. pose proof (split_not_nil sep a) as Hne.
    by destruct (Py.split sep a).
Qed.

Lemma lines_app a b :
  lines (a +:+ String newline b) = lines a ++ lines b.
Proof. apply split_app. Qed.

Lemma fold_left_emit {A B} (step : list A -> B -> list A) l :
  (forall deps x, step deps x = deps ++ step [] x) ->
  forall deps, fold_left step l deps = deps ++ fold_left step l [].
Proof.
  intros Hs. induction l as [|x l IH]; intros deps; cbn [fold_left].
  - by rewrite List.app_nil_r.
  - rewrite (IH (step deps x)), (IH (step [] x)), (Hs deps x).
    by rewrite List.app_assoc.
Qed.

Lemma requirements_step_emit deps line :
  requirements_step deps line = deps ++ requirements_step [] line.
Proof.
  unfold requirements_step. destruct (negb _ && negb _).
  - by destruct (match_ REQUIREMENTS_PATTERN (Py.strip line)) as [m|];
      [|rewrite List.app_nil_r].
  - by rewrite List.app_nil_r.
Qed.

Lemma go_mod_step_emit deps line :
  go_mod_step deps line = deps ++ go_mod_step [] line.
Proof.
  unfold go_mod_step. destruct (negb _ && negb _).
  - by destruct (match_ GO_MOD_PATTERN (Py.strip line)) as [m|];
      [|rewrite List.app_nil_r].
  - by rewrite List.app_nil_r.
Qed.

(** X15. [parse_requirements] and [parse_go_mod] work line by line and
    keep nothing from one line to the next: the pairs of two texts
    joined by a newline are the pairs of the first text followed by the
    pairs of the second.  So the pairs come in the order of the lines,
    and no line changes what another line gives. *)
Theorem line_parsers_work_line_by_line a b file_path :
  parse_requirements (a +:+ String newline b) file_path
  = parse_requirements a file_path ++ parse_requirements b file_path
  /\ parse_go_mod (a +:+ String newline b) file_path
     = parse_go_mod a file_path ++ parse_go_mod b file_path.
Proof.
  unfold parse_requirements, parse_go_mod.
  rewrite lines_app, !fold_left_app. split.
  - apply (fold_left_emit requirements_step), requirements_step_emit.
  - apply (fold_left_emit go_mod_step), go_mod_step_emit.
Qed.

(** *** Sections *)

Lemma fold_outside (step : bool * list dep -> string -> bool * list dep)
    (opens : string -> bool) l deps :
  (forall deps line,
     opens line = false -> step (false, deps) line = (false, deps)) ->
  Forall (fun line => opens line = false) l ->
  fold_left step l (false, deps) = (false, deps).
Proof.
  intros Hs Hl. induction Hl as [|line l Hline Hl IH]; cbn [fold_left]; [done|].
  by rewrite Hs.
Qed.

Lemma block_step_outside opens deps line :
  opens line = false -> block_step opens (false, deps) line = (false, deps).
Proof. unfold block_step. by intros ->. Qed.

Lemma cargo_step_outside deps line :
  Py.contains "[dependencies]" line = false ->
  cargo_step (false, deps) line = (false, deps).
Proof. unfold cargo_step. by intros ->. Qed.

Lemma pipfile_step_outside deps line :
  Py.startswith "[packages]" (Py.strip line) = false ->
  pipfile_step (false, deps) line = (false, deps).
Proof.
  unfold pipfile_step. intros ->.
  by destruct (Py.startswith "[" (Py.strip line)).
Qed.

(** X16. The four parsers that look for a section report nothing from
    a text in which no line opens the section, and a text of that kind
    put in front of a manifest, on lines of its own, changes nothing.
    The section is opened by a line that holds [[dependencies]] for
    [parse_cargo], the key [dependencies] or [devDependencies] in
    double quotes for [parse_package_json], the key [require] in double
    quotes for [parse_composer], and by a line that starts, blanks
    apart, with [[packages]] for [parse_pipfile]. *)
Theorem text_outside_a_section_is_ignored before rest file_path :
  (Forall (fun line => Py.contains "[dependencies]" line = false)
     (lines before) ->
   parse_cargo before file_path = []
   /\ parse_cargo (before +:+ String newline rest) file_path
      = parse_cargo rest file_path)
  /\ (Forall (fun line => opens_dependencies line = false) (lines before) ->
      parse_package_json before file_path = []
      /\ parse_package_json (before +:+ String newline rest) file_path
         = parse_package_json rest file_path)
  /\ (Forall (fun line => opens_require line = false) (lines before) ->
      parse_composer before file_path = []
      /\ parse_composer (before +:+ String newline rest) file_path
         = parse_composer rest file_path)
  /\ (Forall (fun line => Py.startswith "[packages]" (Py.strip line) = false)
        (lines before) ->
      parse_pipfile before file_path = []
      /\ parse_pipfile (before +:+ String newline rest) file_path
         = parse_pipfile rest file_path).
Proof.
  unfold parse_cargo, parse_package_json, parse_composer, parse_pipfile.
  rewrite lines_app, !fold_left_app.
  repeat split.
  - by rewrite (fold_outside cargo_step _ _ [] cargo_step_outside H).
  - by rewrite (fold_outside cargo_step _ _ [] cargo_step_outside H).
  - by rewrite (fold_outside _ _ _ [] (block_step_outside _) H).
  - by rewrite (fold_outside _ _ _ [] (block_step_outside _) H).
  - by rewrite (fold_outside _ _ _ [] (block_step_outside _) H).
  - by rewrite (fold_outside _ _ _ [] (block_step_outside _) H).
  - by rewrite (fold_outside pipfile_step _ _ [] pipfile_step_outside H).
  - by rewrite (fold_outside pipfile_step _ _ [] pipfile_step_outside H).
Qed.

Lemma text_outside_a_section_is_ignored_witness :
  parse_cargo
    (Samples.text ["[package]"; "name = " +:+ Samples.q "myapp"]) Samples.any_path
  = []
  /\ parse_cargo
       (Samples.text ["[package]"; "name = " +:+ Samples.q "myapp"]
        +:+ String newline Samples.cargo_toml) Samples.any_path
     = parse_cargo Samples.cargo_toml Samples.any_path.
Proof.
  apply (proj1 (text_outside_a_section_is_ignored
                  (Samples.text ["[package]"; "name = " +:+ Samples.q "myapp"])
                  Samples.cargo_toml Samples.any_path)).
  vm_compute. repeat constructor.
Defined.

(** *** Pipfile *)

Lemma all_chars_lstrip q p s :
  all_chars q s = true -> all_chars q (Py.lstrip_by p s) = true.
Proof.
  induction s as [|c s IH]; cbn [Py.lstrip_by all_chars]; [done|].
  intros [Hc Hs]%andb_true_iff. destruct (p c); [by apply IH|].
  cbn. by rewrite Hc, Hs.
Qed.

Lemma all_chars_rstrip q p s :
  all_chars q s = true -> all_chars q (Py.rstrip_by p s) = true.
Proof.
  induction s as [|c s IH]; cbn [Py.rstrip_by all_chars]; [done|].
  intros [Hc Hs]%andb_true_iff. destruct (p c && _); [done|].
  cbn. by rewrite Hc, IH.
Qed.

Lemma split1_fst_no_sep sep s : no_char sep (fst (Py.split1 sep s)) = true.
Proof.
  induction s as [|c s IH]; cbn [Py.split1]; [done|].
  destruct (Py.eqc c sep) eqn:E; [done|].
  destruct (Py.split1 sep s) as [a b]. unfold no_char in *. cbn in *.
  by rewrite E, IH.
Qed.

Lemma lstrip_head p s c r : Py.lstrip_by p s = String c r -> p c = false.
Proof.
  induction s as [|a s IH]; cbn [Py.lstrip_by]; [done|].
  destruct (p a) eqn:E; [done|]. by intros [= <- _].
Qed.

Lemma rstrip_idem p s : Py.rstrip_by p (Py.rstrip_by p s) = Py.rstrip_by p s.
Proof.
  induction s as [|c s IH]; cbn [Py.rstrip_by]; [done|].
  destruct (p c && Py.is_empty (Py.rstrip_by p s)) eqn:E; [done|].
  cbn [Py.rstrip_by]. by rewrite IH, E.
Qed.

(** A stripped text is not changed by stripping it again. *)
Lemma strip_by_idem p s : Py.strip_by p (Py.strip_by p s) = Py.strip_by p s.
Proof.
  unfold Py.strip_by.
  destruct (Py.lstrip_by p s) as [|c r] eqn:E; [done|].
  apply lstrip_head in E. cbn [Py.rstrip_by]. rewrite E. cbn [andb].
  cbn [Py.lstrip_by]. rewrite E. cbn [Py.rstrip_by]. rewrite E. cbn [andb].
  by rewrite rstrip_idem.
Qed.

(** X17. Every pair of [parse_pipfile] has a non-empty name, which is
    the text before the first [=] of its line without the blanks around
    it, so it holds no [=] and neither starts nor ends with a blank;
    the version is the rest of the line without the blanks and then the
    quotes around it, so it neither starts nor ends with a quote. *)
Theorem pipfile_pairs_shape content file_path name version :
  (name, version) ∈ parse_pipfile content file_path ->
  name <> EmptyString
  /\ no_char "=" name = true
  /\ Py.strip name = name
  /\ Py.strip_chars quote_chars version = version.
Proof.
  revert name version. unfold parse_pipfile.
  apply (fold_left_inv (fun st => forall name version,
           (name, version) ∈ snd st -> _)).
  { intros name version H. by apply elem_of_nil in H. }
  intros [in_packages deps] line _ IH name version.
  unfold pipfile_step. cbn [snd] in *.
  destruct (Py.startswith "[packages]" (Py.strip line)); [apply IH|].
  destruct (_ && Py.contains "=" line); [|apply IH].
  pose proof (split1_fst_no_sep "=" line) as Hsep.
  destruct (Py.split1 "=" line) as [p0 p1]. cbn [fst] in Hsep.
  destruct (Py.is_empty (Py.strip p0)) eqn:E; cbn [negb snd]; [apply IH|].
  intros [H|H]%elem_of_app; [by apply IH|].
  apply list_elem_of_singleton in H as [= -> ->].
  split; [by apply is_empty_false|]. split; [|split].
  - unfold Py.strip, Py.strip_by. by apply all_chars_rstrip, all_chars_lstrip.
  - apply strip_by_idem.
  - apply strip_by_idem.
Qed.

Lemma pipfile_pairs_shape_witness :
  "django" <> EmptyString
  /\ no_char "=" "django" = true
  /\ Py.strip "django" = "django"
  /\ Py.strip_chars quote_chars ">=3.0" = ">=3.0".
Proof.
  apply (pipfile_pairs_shape
           (Samples.text ["[packages]"; "django = " +:+ Samples.q ">=3.0"])
           Samples.any_path).
  vm_compute. left.
Defined.

(** *** go.mod *)

(** The greedy run over [w], stopped by the next character. *)
Lemma star_run_stops {R} p (k : cont) w c s n cs (x : R) :
  all_chars p w = true -> p c = false ->
  k (String c s) (n + String.length w) cs = Some x ->
  star p k (w +:+ String c s) n cs = Some x.
Proof.
  revert n. induction w as [|a w IH]; intros n Hw Hc Hk;
    cbn [String.append star].
  - rewrite Hc. by rewrite Nat.add_0_r in Hk.
  - cbn [all_chars] in Hw. apply andb_true_iff in Hw as [Ha Hw].
    rewrite Ha, (IH (S n)); [done | done | done |].
    cbn [String.length] in Hk. by rewrite Nat.add_succ_r in Hk.
Qed.

Lemma substring_all w : substring 0 (String.length w) w = w.
Proof. induction w as [|a w IH]; cbn; [done | by rewrite IH]. Qed.

Lemma go_mod_match_two_words w1 w2 :
  w1 <> EmptyString -> w2 <> EmptyString ->
  all_chars non_space w1 = true -> all_chars non_space w2 = true ->
  Py.startswith "v" w2 = false ->
  match_ GO_MOD_PATTERN (w1 +:+ " " +:+ w2)
  = Some (MatchObj 0 (String.length w1 + 1 + String.length w2)
            [(2, w2); (1, w1)]).
Proof.
  destruct w1 as [|a w1]; [done|]. destruct w2 as [|b w2]; [done|].
  intros _ _ H1 H2 Hv. cbn [all_chars] in H1, H2.
  apply andb_true_iff in H1 as [Ha H1]. apply andb_true_iff in H2 as [Hb H2].
  assert (Py.isspace a = false) as Hsa by (by apply negb_true_iff).
  assert (Py.isspace b = false) as Hsb by (by apply negb_true_iff).
  assert (Py.eqc "v" b = false) as Hvb.
  { cbn [Py.startswith] in Hv. by destruct (Py.eqc "v" b). }
  unfold match_, match_at, GO_MOD_PATTERN, Plus.
  cbn [run Nat.eqb String.append star]. unfold space at 1. rewrite Hsa, Ha.
  apply star_run_stops; [done | done |].
  cbn [run star drop_prefix]. unfold space at 1 2.
  replace (Py.isspace " ") with true by done. rewrite Hsb, Hvb, Hb.
  apply star_all; [done|].
  pose proof (substring_app_l (String a w1) (String " " (String b w2))) as Hs1.
  pose proof (substring_all (String b w2)) as Hs2.
  cbn [String.append String.length] in Hs1, Hs2.
  replace (1 + String.length w1 - 0) with (S (String.length w1)) by lia.
  replace (S (S (1 + String.length w1)) + String.length w2
           - S (1 + String.length w1)) with (S (String.length w2)) by lia.
  rewrite Hs1, Hs2. do 2 f_equal. cbn [String.length]. lia.
Qed.

Lemma rstrip_app_no_space a b :
  b <> EmptyString -> all_chars non_space b = true ->
  Py.rstrip_by Py.isspace (a +:+ b) = a +:+ b.
Proof.
  intros Hb Hs. induction a as [|c a IH]; cbn [String.append].
  - by apply rstrip_no_space.
  - cbn [Py.rstrip_by]. rewrite IH.
    destruct (a +:+ b) eqn:E; [|by rewrite andb_false_r].
    destruct a; [done | discriminate].
Qed.

Lemma split_one sep s : no_char sep s = true -> Py.split sep s = [s].
Proof.
  unfold no_char. induction s as [|c s IH]; cbn [all_chars Py.split]; [done|].
  intros [Hc Hs]%andb_true_iff. apply negb_true_iff in Hc.
  by rewrite Hc, (IH Hs).
Qed.

Lemma non_space_no_newline w :
  all_chars non_space w = true -> no_char newline w = true.
Proof.
  unfold no_char. induction w as [|c w IH]; cbn [all_chars]; [done|].
  intros [Hc Hw]%andb_true_iff. rewrite (IH Hw), andb_true_r.
  destruct (Py.eqc c newline) eqn:E; [|done].
  apply eqc_eq in E as ->. done.
Qed.

Lemma no_char_app c a b :
  no_char c a = true -> no_char c b = true -> no_char c (a +:+ b) = true.
Proof.
  unfold no_char. intros Ha Hb.
  induction a as [|x a IH]; cbn [String.append all_chars] in *; [done|].
  apply andb_true_iff in Ha as [Hx Ha]. by rewrite Hx, IH.
Qed.

(** X19. [parse_go_mod] makes a pair of any line of two words: a first
    word that does not start a comment, one blank, and a second word
    that does not start with [v] give the pair of the two words.  The
    [module] line, the [go] line and the line that opens a [require]
    block of a go.mod file are of this kind, and are reported as
    dependencies. *)
Theorem go_mod_reports_two_word_lines w1 w2 file_path :
  w1 <> EmptyString -> w2 <> EmptyString ->
  all_chars non_space w1 = true -> all_chars non_space w2 = true ->
  Py.startswith "//" w1 = false ->
  Py.startswith "v" w2 = false ->
  parse_go_mod (w1 +:+ " " +:+ w2) file_path = [(w1, w2)].
Proof.
  intros Hn1 Hn2 H1 H2 Hc Hv. unfold parse_go_mod, lines.
  rewrite split_one.
  2:{ apply no_char_app; [by apply non_space_no_newline|].
      apply (no_char_app _ " "); [done | by apply non_space_no_newline]. }
  cbn [fold_left]. unfold go_mod_step.
  assert (Py.strip (w1 +:+ " " +:+ w2) = w1 +:+ " " +:+ w2) as ->.
  { unfold Py.strip, Py.strip_by.
    assert (Py.lstrip_by Py.isspace (w1 +:+ " " +:+ w2) = w1 +:+ " " +:+ w2)
      as ->.
    { destruct w1 as [|a w1]; [done|]. cbn [all_chars] in H1.
      apply andb_true_iff in H1 as [Ha _]. apply negb_true_iff in Ha.
      cbn [String.append Py.lstrip_by]. by rewrite Ha. }
    rewrite <- sapp_assoc. by apply rstrip_app_no_space. }
  pose proof (go_mod_match_two_words w1 w2 Hn1 Hn2 H1 H2 Hv) as Hm.
  assert (Py.is_empty (w1 +:+ " " +:+ w2) = false) as ->.
  { by destruct w1. }
  assert (Py.startswith "//" (w1 +:+ " " +:+ w2) = false) as ->.
  { destruct w1 as [|a [|a' w1]]; [done| |].
    - cbn. by rewrite andb_false_r.
    - done. }
  cbn [negb andb].
  by rewrite Hm.
Qed.

Lemma go_mod_reports_two_word_lines_witness :
  parse_go_mod ("module" +:+ " " +:+ "example.com/myapp") Samples.any_path
  = [("module", "example.com/myapp")].
Proof.
  apply (go_mod_reports_two_word_lines "module" "example.com/myapp"
           Samples.any_path); vm_compute; congruence.
Defined.

End ParserLaws.

(** ** A whole run *)

Module CliLaws.
Import Cli Csv PyFacts CsvFacts.
#[local] Arguments String.append : simpl nomatch.





End CliLaws.
